(** * Walver SDK (JavaScript): a shallow embedding of [src/client.ts]

    The client is a single class wrapping an HTTP transport.  We embed
    - the values it manipulates (strings, booleans, IEEE numbers, dates,
      plain objects with insertion-ordered keys),
    - JavaScript truthiness, on which every guard of the source relies,
    - the effects it has (reading [process.env], [console.warn], one HTTP
      round trip, [throw]) as a state-and-exception monad,
    - the constructor and [createVerification], statement by statement. *)

From Stdlib Require Import String Ascii List ZArith Bool Lia Permutation.
From Stdlib Require Import SpecFloat.
Import ListNotations.

Local Open Scope string_scope.
Local Open Scope list_scope.

(** ** JavaScript values *)

(** [number] is an IEEE-754 double; only its classification matters here. *)
Definition number : Type := spec_float.

(** An integer literal of the source, as the float [z * 2^0]. *)
Definition number_of_Z (z : Z) : number :=
  match z with
  | Z0 => S754_zero false
  | Zpos p => S754_finite false p 0
  | Zneg p => S754_finite true p 0
  end.

(** A [Date]: its time value is [NaN] ([None], an Invalid Date) or a whole
    number of milliseconds since the epoch. *)
Record JsDate : Type := { time_value : option Z }.

(** [JInherited name] stands for what a plain object inherits under [name]
    from [Object.prototype]: a built-in function, or the prototype itself. *)
#[warnings="-register-all"]
Inductive JsValue : Type :=
| JUndefined
| JBool (b : bool)
| JNumber (n : number)
| JString (s : string)
| JDate (d : JsDate)
| JInherited (name : string)
| JArray (items : list JsValue)
| JObject (fields : list (string * JsValue)).

(** A plain object: its own properties, keys in insertion order, each key
    at most once. *)
Definition JsObject : Type := list (string * JsValue).

(** ** Truthiness ([ToBoolean]) *)

(** A number is falsy exactly when it is [+0], [-0] or [NaN]. *)
Definition number_truthy (n : number) : bool :=
  match n with
  | S754_zero _ => false
  | S754_nan => false
  | S754_infinity _ => true
  | S754_finite _ _ _ => true
  end.

Definition string_truthy (s : string) : bool := negb (s =? "").

(** An optional field is [undefined] ([None]) or holds a value. *)
Definition truthy_string (v : option string) : bool :=
  match v with
  | Some s => string_truthy s
  | None => false
  end.

Definition truthy_number (v : option number) : bool :=
  match v with
  | Some n => number_truthy n
  | None => false
  end.

(** Narrowing of [string | undefined] after a truthiness test. *)
Definition nonempty (v : option string) : option string :=
  match v with
  | Some s => if string_truthy s then Some s else None
  | None => None
  end.

(** Destructuring default: [x = d] takes [d] exactly when [x] is undefined. *)
Definition or_default {A : Type} (d : A) (v : option A) : A :=
  match v with
  | Some a => a
  | None => d
  end.

(** ** String primitives of the runtime *)

Definition startsWith (s pre : string) : bool := String.prefix pre s.

Definition endsWith (s suf : string) : bool :=
  let n := String.length s in
  let k := String.length suf in
  (k <=? n)%nat && (substring (n - k) k s =? suf).

(** [s.slice(0, -1)] *)
Definition slice_0_m1 (s : string) : string :=
  substring 0 (String.length s - 1) s.

(** ** Dates *)

Module ISO.

Local Open Scope Z_scope.

Definition msPerDay : Z := 86400000.

Definition digit (d : Z) : ascii :=
  ascii_of_nat (48 + Z.to_nat (d mod 10)).

(** [digits n z]: the [n] low decimal digits of [z], most significant first. *)
Fixpoint digits (n : nat) (z : Z) : string :=
  match n with
  | O => ""
  | S k => digits k (z / 10) ++ String (digit z) ""
  end.

(** Civil date of a day number (days since 1970-01-01), proleptic
    Gregorian calendar. *)
Definition civil (day : Z) : Z * Z * Z :=
  let z := day + 719468 in
  let era := z / 146097 in
  let doe := z - era * 146097 in
  let yoe := (doe - doe / 1460 + doe / 36524 - doe / 146096) / 365 in
  let doy := doe - (365 * yoe + yoe / 4 - yoe / 100) in
  let mp := (5 * doy + 2) / 153 in
  let d := doy - (153 * mp + 2) / 5 + 1 in
  let m := if mp <? 10 then mp + 3 else mp - 9 in
  let y := yoe + era * 400 + (if m <=? 2 then 1 else 0) in
  (y, m, d).

Definition year_string (y : Z) : string :=
  if (0 <=? y) && (y <=? 9999) then digits 4 y
  else (if y <? 0 then "-" else "+") ++ digits 6 (Z.abs y).

(** [YYYY-MM-DDTHH:mm:ss.sssZ] of a time value, in UTC. *)
Definition format (t : Z) : string :=
  let day := t / msPerDay in
  let ms := t mod msPerDay in
  let '(y, m, dd) := civil day in
  (year_string y ++ "-" ++ digits 2 m ++ "-" ++ digits 2 dd
    ++ "T" ++ digits 2 (ms / 3600000)
    ++ ":" ++ digits 2 (ms / 60000 mod 60)
    ++ ":" ++ digits 2 (ms / 1000 mod 60)
    ++ "." ++ digits 3 (ms mod 1000) ++ "Z")%string.

(** *** Reading the format back

    The instant an ISO-8601 string of this shape denotes, by the calendar
    arithmetic in the other direction. *)

Definition digit_value (c : ascii) : option Z :=
  let n := nat_of_ascii c in
  if (48 <=? n)%nat && (n <=? 57)%nat then Some (Z.of_nat (n - 48)) else None.

(** Read [n] decimal digits, most significant first. *)
Fixpoint read_digits (n : nat) (acc : Z) (s : string) : option (Z * string) :=
  match n with
  | O => Some (acc, s)
  | S k =>
      match s with
      | String c s' =>
          match digit_value c with
          | Some v => read_digits k (acc * 10 + v) s'
          | None => None
          end
      | EmptyString => None
      end
  end.

(** Read one given character. *)
Definition skip (c : ascii) (s : string) : option string :=
  match s with
  | String c' s' => if Ascii.eqb c c' then Some s' else None
  | EmptyString => None
  end.

(** Four digits, or a sign and six digits. *)
Definition read_year (s : string) : option (Z * string) :=
  match s with
  | String c s' =>
      if Ascii.eqb c "+" then read_digits 6 0 s'
      else if Ascii.eqb c "-" then
        match read_digits 6 0 s' with
        | Some (y, rest) => Some (- y, rest)
        | None => None
        end
      else read_digits 4 0 s
  | EmptyString => None
  end.

(** Day number of a civil date. *)
Definition days_from_civil (y m d : Z) : Z :=
  let y := if m <=? 2 then y - 1 else y in
  let era := y / 400 in
  let yoe := y - era * 400 in
  let mp := if 2 <? m then m - 3 else m + 9 in
  let doy := (153 * mp + 2) / 5 + d - 1 in
  let doe := yoe * 365 + yoe / 4 - yoe / 100 + doy in
  era * 146097 + doe - 719468.

(** What [civil] computes from the day of the era, checked against
    [days_from_civil]: the year of the era, the month and the day are in
    range and lead back to the same day of the era. *)
Definition doe_ok (doe : Z) : bool :=
  let yoe := (doe - doe / 1460 + doe / 36524 - doe / 146096) / 365 in
  let doy := doe - (365 * yoe + yoe / 4 - yoe / 100) in
  let mp := (5 * doy + 2) / 153 in
  let d := doy - (153 * mp + 2) / 5 + 1 in
  let m := if mp <? 10 then mp + 3 else mp - 9 in
  (0 <=? yoe) && (yoe <=? 399) && (1 <=? m) && (m <=? 12)
  && (1 <=? d) && (d <=? 31)
  && (let mp' := if 2 <? m then m - 3 else m + 9 in
      yoe * 365 + yoe / 4 - yoe / 100 + ((153 * mp' + 2) / 5 + d - 1) =? doe).

(** [p] holds of the [n] integers from [i] on. *)
Fixpoint all_from (p : Z -> bool) (n : nat) (i : Z) : bool :=
  match n with
  | O => true
  | S k => if p i then all_from p k (i + 1) else false
  end.

Definition instant (s : string) : option Z :=
  match read_year s with
  | Some (y, s) =>
  match skip "-" s with
  | Some s =>
  match read_digits 2 0 s with
  | Some (m, s) =>
  match skip "-" s with
  | Some s =>
  match read_digits 2 0 s with
  | Some (d, s) =>
  match skip "T" s with
  | Some s =>
  match read_digits 2 0 s with
  | Some (h, s) =>
  match skip ":" s with
  | Some s =>
  match read_digits 2 0 s with
  | Some (mi, s) =>
  match skip ":" s with
  | Some s =>
  match read_digits 2 0 s with
  | Some (sec, s) =>
  match skip "." s with
  | Some s =>
  match read_digits 3 0 s with
  | Some (ms, s) =>
      if (s =? "Z")%string
      then Some (days_from_civil y m d * msPerDay
                 + h * 3600000 + mi * 60000 + sec * 1000 + ms)
      else None
  | None => None end
  | None => None end
  | None => None end
  | None => None end
  | None => None end
  | None => None end
  | None => None end
  | None => None end
  | None => None end
  | None => None end
  | None => None end
  | None => None end
  | None => None end.

End ISO.

(** The largest time value a [Date] can hold, in either direction. *)
Definition maxTime : Z := 8640000000000000.

(** [TimeClip]: a time value out of range is [NaN]. *)
Definition TimeClip (t : Z) : option Z :=
  if (Z.abs t <=? maxTime)%Z then Some t else None.

(** [new Date(ms)] for a whole number of milliseconds. *)
Definition new_Date (ms : Z) : JsDate := {| time_value := TimeClip ms |}.

(** [new Date(NaN)], [new Date('garbage')] *)
Definition InvalidDate : JsDate := {| time_value := None |}.

(** The finite time value of a date, if it has one. *)
Definition finite_time (d : JsDate) : option Z :=
  match time_value d with
  | Some t => TimeClip t
  | None => None
  end.

(** ** Errors and effects *)

(** [error.response] of a failed request, when the server answered. *)
Record AxiosResponse : Type := {
  status : Z;
  response_data : JsValue
}.

(** What can be thrown: an [Error] built by the client itself, or whatever
    the transport rejects with (a reply with an error status, or a failure
    without any reply: time-out, DNS, refused connection). *)
Inductive JsError : Type :=
| Error (message : string)
| RangeError (message : string)
| AxiosError (message : string) (response : option AxiosResponse).

(** [error.response]; an [Error] or a [RangeError] has no such property. *)
Definition response_of (error : JsError) : option AxiosResponse :=
  match error with
  | Error _ => None
  | RangeError _ => None
  | AxiosError _ r => r
  end.

(** [Date.prototype.toISOString]: the string of a finite time value; on an
    Invalid Date it throws a [RangeError]. *)
Definition toISOString (d : JsDate) : JsError + string :=
  match finite_time d with
  | Some t => inr (ISO.format t)
  | None => inl (RangeError "Invalid time value")
  end.

Record AxiosInstance : Type := {
  baseURL : string;
  timeout : number;
  headers : list (string * string)
}.

Inductive HttpMethod : Type := GET | POST | DELETE.

(** One HTTP round trip as the transport sees it. *)
Record Request : Type := {
  req_client : AxiosInstance;
  req_method : HttpMethod;
  req_path : string;
  req_data : JsObject
}.

(** The part of the outside world the client reads or writes. *)
Record World : Type := {
  process_env : list (string * string);
  console : list string;
  network : list Request
}.

Inductive Completion (A : Type) : Type :=
| Return (a : A)
| Throw (e : JsError).
Arguments Return {A} a.
Arguments Throw {A} e.

Definition M (A : Type) : Type := World -> Completion A * World.

Definition ret {A : Type} (a : A) : M A := fun w => (Return a, w).

Definition throw {A : Type} (e : JsError) : M A := fun w => (Throw e, w).

Definition bind {A B : Type} (m : M A) (k : A -> M B) : M B :=
  fun w =>
    match m w with
    | (Return a, w') => k a w'
    | (Throw e, w') => (Throw e, w')
    end.

(** [try { m } catch (error) { h error }] *)
Definition try_catch {A : Type} (m : M A) (h : JsError -> M A) : M A :=
  fun w =>
    match m w with
    | (Return a, w') => (Return a, w')
    | (Throw e, w') => h e w'
    end.

(** A call of the runtime that returns or throws. *)
Definition lift {A : Type} (r : JsError + A) : M A :=
  match r with
  | inr a => ret a
  | inl e => throw e
  end.

(** [if (c) { m }] *)
Definition when (c : bool) (m : M unit) : M unit :=
  if c then m else ret tt.

Declare Scope js_scope.
Delimit Scope js_scope with js.
Notation "x <- m ;; k" := (bind m (fun x => k))
  (at level 61, m at next level, right associativity) : js_scope.
Notation "m ;; k" := (bind m (fun _ => k))
  (at level 61, right associativity) : js_scope.
Local Open Scope js_scope.

Fixpoint assoc {A : Type} (k : string) (l : list (string * A)) : option A :=
  match l with
  | [] => None
  | (k', v) :: l' => if k' =? k then Some v else assoc k l'
  end.

(** [process.env[name]] *)
Definition getenv (name : string) : M (option string) :=
  fun w => (Return (assoc name (process_env w)), w).

(** [console.warn(msg)] *)
Definition console_warn (msg : string) : M unit :=
  fun w => (Return tt,
            {| process_env := process_env w;
               console := console w ++ [msg];
               network := network w |}).

(** ** The client *)

Record Walver : Type := {
  apiKey : string;
  baseUrl : string;
  client : AxiosInstance
}.

Definition MSG_API_KEY : string :=
  "API key is required. Either pass it as an argument or set the WALVER_API_KEY environment variable in .env file".

(** [axios.create({ baseURL, timeout, headers: { 'X-API-Key': apiKey } })] *)
Definition axios_create (base : string) (t : number) (key : string)
  : AxiosInstance :=
  {| baseURL := base; timeout := t; headers := [("X-API-Key", key)] |}.

(** [constructor(apiKey?, baseUrl = 'https://walver.io/', timeout = 10000)] *)
Definition constructor (apiKey : option string) (baseUrl : option string)
    (timeout : option number) : M Walver :=
  let baseUrl := or_default "https://walver.io/" baseUrl in
  let timeout := or_default (number_of_Z 10000) timeout in
  apiKey <- match nonempty apiKey with
            | Some key => ret key
            | None =>
                apiKey <- getenv "WALVER_API_KEY" ;;
                match nonempty apiKey with
                | Some key => ret key
                | None => throw (Error MSG_API_KEY)
                end
            end ;;
  let baseUrl := if endsWith baseUrl "/" then slice_0_m1 baseUrl else baseUrl in
  ret {| apiKey := apiKey;
         baseUrl := baseUrl;
         client := axios_create baseUrl timeout apiKey |}.

(** ** Verification requests *)

(** [interface CustomField { type: string; [key: string]: any }] *)
Record CustomField : Type := {
  type : string;
  attributes : JsObject
}.

Definition CustomField_value (field : CustomField) : JsValue :=
  JObject (("type", JString (type field)) :: attributes field).

(** [string | Date] *)
Inductive Expiration : Type :=
| ExpString (s : string)
| ExpDate (d : JsDate).

(** [interface VerificationOptions]: a field marked [?] may be undefined. *)
Record VerificationOptions : Type := {
  id : string;
  service_name : string;
  chain : string;
  internal_id : option string;
  webhook : option string;
  expiration : option Expiration;
  secret : option string;
  redirect_url : option string;
  one_time : option bool;
  folder_id : option string;
  custom_fields : option (list CustomField);
  token_gate : option bool;
  token_address : option string;
  token_amount : option number;
  is_nft : option bool;
  force_email_verification : option bool;
  force_telegram_verification : option bool;
  force_twitter_verification : option bool;
  force_telephone_verification : option bool;
  force_discord_verification : option bool
}.

(** Injection of optional fields into object property values. *)
Definition of_string (v : option string) : JsValue :=
  match v with Some s => JString s | None => JUndefined end.

Definition of_number (v : option number) : JsValue :=
  match v with Some n => JNumber n | None => JUndefined end.

Definition of_expiration (v : option Expiration) : JsValue :=
  match v with
  | Some (ExpString s) => JString s
  | Some (ExpDate d) => JDate d
  | None => JUndefined
  end.

(** *** Object primitives *)

Definition keys (o : JsObject) : list string := map fst o.

(** The property names every plain object inherits from
    [Object.prototype]. *)
Definition Object_prototype : list string :=
  [ "constructor"; "__defineGetter__"; "__defineSetter__"; "hasOwnProperty";
    "__lookupGetter__"; "__lookupSetter__"; "isPrototypeOf";
    "propertyIsEnumerable"; "toString"; "valueOf"; "__proto__";
    "toLocaleString" ].

Definition inherited (key : string) : bool :=
  existsb (String.eqb key) Object_prototype.

(** [o[key]]: the own property if there is one, else what the prototype
    has, else [undefined]. *)
Definition get (key : string) (o : JsObject) : JsValue :=
  match assoc key o with
  | Some v => v
  | None => if inherited key then JInherited key else JUndefined
  end.

(** [delete o[key]] *)
Definition delete (key : string) (o : JsObject) : JsObject :=
  filter (fun kv => negb (fst kv =? key)) o.

Definition is_undefined (v : JsValue) : bool :=
  match v with
  | JUndefined => true
  | _ => false
  end.

(** [Object.keys(data).forEach(key => { if (data[key] === undefined) delete data[key] })] *)
Definition remove_undefined (data : JsObject) : JsObject :=
  fold_left
    (fun data key => if is_undefined (get key data) then delete key data else data)
    (keys data) data.

(** An array, like every object, is truthy. *)
Definition array_truthy {A : Type} (a : list A) : bool := true.

(** *** Messages *)

Definition MSG_FOLDER_OR_WEBHOOK : string :=
  "If no folder_id is provided, webhook is required".
Definition MSG_SECRET_WARNING : string :=
  "Warning: secret is highly recommended when using webhooks".
Definition MSG_WEBHOOK_HTTPS : string :=
  "webhook must start with https://".
Definition MSG_TOKEN_ADDRESS : string :=
  "token_address is required when using token gate".
Definition MSG_TOKEN_AMOUNT : string :=
  "token_amount is required when using token gate".
Definition MSG_DUPLICATE : string :=
  "ID for the verification already exists. Choose another ID.".

Inductive Channel : Type := email | telegram | twitter | telephone | discord.

Definition channel_name (c : Channel) : string :=
  match c with
  | email => "email"
  | telegram => "telegram"
  | twitter => "twitter"
  | telephone => "telephone"
  | discord => "discord"
  end.

Definition MSG_FORCE (c : Channel) : string :=
  "custom_fields[" ++ channel_name c ++ "] is required when using force_"
    ++ channel_name c ++ "_verification".

(** *** The checks of [createVerification], one definition per [if] *)

(** lines 163-165 *)
Definition check_folder_or_webhook (folder_id webhook : option string) : M unit :=
  when (negb (truthy_string folder_id) && negb (truthy_string webhook))
    (throw (Error MSG_FOLDER_OR_WEBHOOK)).

(** lines 168-170 *)
Definition warn_missing_secret (webhook secret : option string) : M unit :=
  when (truthy_string webhook && negb (truthy_string secret))
    (console_warn MSG_SECRET_WARNING).

(** lines 172-174 *)
Definition check_webhook_https (webhook : option string) : M unit :=
  when (match nonempty webhook with
        | Some webhook => negb (startsWith webhook "https://")
        | None => false
        end)
    (throw (Error MSG_WEBHOOK_HTTPS)).

(** lines 176-183 *)
Definition check_token_gate (token_gate : bool) (token_address : option string)
    (token_amount : option number) : M unit :=
  when token_gate
    (when (negb (truthy_string token_address)) (throw (Error MSG_TOKEN_ADDRESS)) ;;
     when (negb (truthy_number token_amount)) (throw (Error MSG_TOKEN_AMOUNT))).

(** lines 185-192, 194-201, 203-210, 212-219 and 221-228: the same block
    once per channel, with the channel's flag. *)
Definition check_force (c : Channel) (flag : bool)
    (custom_fields : list CustomField) : M unit :=
  when flag
    (when (negb (array_truthy custom_fields) || (length custom_fields =? 0)%nat)
       (throw (Error (MSG_FORCE c))) ;;
     when (negb (existsb (fun field => type field =? channel_name c) custom_fields))
       (throw (Error (MSG_FORCE c)))).

Section Transport.

(** The remote service and the network in between: the body of the reply,
    or the error the transport rejects with. *)
Variable respond : Request -> JsError + JsValue.

Definition send (req : Request) : M JsValue :=
  fun w =>
    let w' := {| process_env := process_env w;
                 console := console w;
                 network := network w ++ [req] |} in
    match respond req with
    | inr body => (Return body, w')
    | inl e => (Throw e, w')
    end.

(** [this.client.post(path, data)], then [response.data] *)
Definition _post (this : Walver) (path : string) (data : JsObject) : M JsValue :=
  send {| req_client := client this;
          req_method := POST;
          req_path := path;
          req_data := data |}.

Definition createVerification (this : Walver) (options : VerificationOptions)
  : M JsValue :=
  let id := id options in
  let service_name := service_name options in
  let chain := chain options in
  let internal_id := internal_id options in
  let webhook := webhook options in
  let expiration := expiration options in
  let secret := secret options in
  let redirect_url := redirect_url options in
  let one_time := or_default false (one_time options) in
  let folder_id := folder_id options in
  let custom_fields := or_default [] (custom_fields options) in
  let token_gate := or_default false (token_gate options) in
  let token_address := token_address options in
  let token_amount := token_amount options in
  let is_nft := or_default false (is_nft options) in
  let force_email_verification :=
    or_default false (force_email_verification options) in
  let force_telegram_verification :=
    or_default false (force_telegram_verification options) in
  let force_twitter_verification :=
    or_default false (force_twitter_verification options) in
  let force_telephone_verification :=
    or_default false (force_telephone_verification options) in
  let force_discord_verification :=
    or_default false (force_discord_verification options) in

  formattedExpiration <-
    match expiration with
    | Some (ExpDate d) =>
        iso <- lift (toISOString d) ;; ret (Some (ExpString iso))
    | _ => ret expiration
    end ;;

  let data : JsObject :=
    [ ("id", JString id);
      ("service_name", JString service_name);
      ("chain", JString chain);
      ("internal_id", of_string internal_id);
      ("webhook", of_string webhook);
      ("expiration", of_expiration formattedExpiration);
      ("secret", of_string secret);
      ("redirect_url", of_string redirect_url);
      ("one_time", JBool one_time);
      ("folder_id", of_string folder_id);
      ("custom_fields", JArray (map CustomField_value custom_fields));
      ("token_gate", JBool token_gate);
      ("token_address", of_string token_address);
      ("token_amount", of_number token_amount);
      ("is_nft", JBool is_nft);
      ("force_email_verification", JBool force_email_verification);
      ("force_telegram_verification", JBool force_telegram_verification);
      ("force_twitter_verification", JBool force_twitter_verification);
      ("force_telephone_verification", JBool force_telephone_verification);
      ("force_discord_verification", JBool force_discord_verification) ] in

  check_folder_or_webhook folder_id webhook ;;
  warn_missing_secret webhook secret ;;
  check_webhook_https webhook ;;
  check_token_gate token_gate token_address token_amount ;;
  check_force email force_email_verification custom_fields ;;
  check_force telegram force_telegram_verification custom_fields ;;
  check_force twitter force_twitter_verification custom_fields ;;
  check_force telephone force_telephone_verification custom_fields ;;
  check_force discord force_discord_verification custom_fields ;;

  let data := remove_undefined data in

  try_catch (_post this "/new" data)
    (fun error =>
       if match response_of error with
          | Some response => (status response =? 409)%Z
          | None => false
          end
       then throw (Error MSG_DUPLICATE)
       else throw error).

End Transport.

(** ** The other methods of the class *)

(** [a || d] on an optional array. *)
Definition or_array {A : Type} (a : option (list A)) (d : list A) : list A :=
  match a with
  | Some a => if array_truthy a then a else d
  | None => d
  end.

Section Methods.

Variable respond : Request -> JsError + JsValue.

(** [this.client.get(path, { params })], then [response.data].  The query
    parameters travel in [req_data]: none when [params] is undefined. *)
Definition _get (this : Walver) (path : string) (params : option JsObject)
  : M JsValue :=
  send respond {| req_client := client this;
                  req_method := GET;
                  req_path := path;
                  req_data := or_default [] params |}.

(** [this.client.delete(path, { params })], then [response.data] *)
Definition _delete (this : Walver) (path : string) (params : option JsObject)
  : M JsValue :=
  send respond {| req_client := client this;
                  req_method := DELETE;
                  req_path := path;
                  req_data := or_default [] params |}.

Definition createFolder (this : Walver) (name : string)
    (description : option string) (customFields : option (list CustomField))
  : M JsValue :=
  let data : JsObject :=
    [ ("name", JString name);
      ("description", of_string description);
      ("custom_fields", JArray (map CustomField_value (or_array customFields []))) ] in
  _post respond this "/creator/folders" data.

Definition getFolders (this : Walver) : M JsValue :=
  _get this "/creator/folders" None.

Definition getFolder (this : Walver) (folderId : string) : M JsValue :=
  _get this ("/creator/folders/" ++ folderId) None.

Definition getFolderVerifications (this : Walver) (folderId : string)
  : M JsValue :=
  _get this ("/creator/folders/" ++ folderId ++ "/verifications") None.

Definition createApiKey (this : Walver) (name : string)
    (description : option string) : M JsValue :=
  let data : JsObject :=
    [ ("name", JString name);
      ("description", of_string description) ] in
  _post respond this "/creator/api-keys" data.

Definition getApiKeys (this : Walver) : M JsValue :=
  _get this "/creator/api-keys" None.

Definition deleteApiKey (this : Walver) (apiKeyId : string) : M JsValue :=
  _delete this ("/creator/api-keys/" ++ apiKeyId) None.

End Methods.

(** * Vocabulary of the specification *)

Definition channels : list Channel :=
  [email; telegram; twitter; telephone; discord].

(** The option [force_<channel>_verification] as the caller passed it. *)
Definition force_flag (c : Channel) (o : VerificationOptions) : option bool :=
  match c with
  | email => force_email_verification o
  | telegram => force_telegram_verification o
  | twitter => force_twitter_verification o
  | telephone => force_telephone_verification o
  | discord => force_discord_verification o
  end.

(** [custom_fields] holds an element whose [type] is the channel's name. *)
Definition has_field (c : Channel) (fields : list CustomField) : bool :=
  existsb (fun field => type field =? channel_name c) fields.

(** The structural rules a request can break, one per distinct message. *)
Inductive Rule : Type :=
| FolderOrWebhook
| WebhookHttps
| TokenAddress
| TokenAmount
| Force (c : Channel).

Definition violates (r : Rule) (o : VerificationOptions) : bool :=
  match r with
  | FolderOrWebhook =>
      negb (truthy_string (folder_id o)) && negb (truthy_string (webhook o))
  | WebhookHttps =>
      match nonempty (webhook o) with
      | Some url => negb (startsWith url "https://")
      | None => false
      end
  | TokenAddress =>
      or_default false (token_gate o) && negb (truthy_string (token_address o))
  | TokenAmount =>
      or_default false (token_gate o) && negb (truthy_number (token_amount o))
  | Force c =>
      or_default false (force_flag c o)
        && negb (has_field c (or_default [] (custom_fields o)))
  end.

Definition rule_message (r : Rule) : string :=
  match r with
  | FolderOrWebhook => MSG_FOLDER_OR_WEBHOOK
  | WebhookHttps => MSG_WEBHOOK_HTTPS
  | TokenAddress => MSG_TOKEN_ADDRESS
  | TokenAmount => MSG_TOKEN_AMOUNT
  | Force c => MSG_FORCE c
  end.

(** The order in which the rules are tried. *)
Definition rule_order : list Rule :=
  [FolderOrWebhook; WebhookHttps; TokenAddress; TokenAmount;
   Force email; Force telegram; Force twitter; Force telephone; Force discord].

Definition first_violation (o : VerificationOptions) : option Rule :=
  find (fun r => violates r o) rule_order.

(** A webhook without a signing secret. *)
Definition secret_missing (o : VerificationOptions) : bool :=
  truthy_string (webhook o) && negb (truthy_string (secret o)).

(** When the source logs the warning: once the presence rule has passed. *)
Definition warned (o : VerificationOptions) : bool :=
  negb (violates FolderOrWebhook o) && secret_missing o.

(** When the specification's order would log it: after the presence rule
    and the scheme rule have both passed. *)
Definition spec_warned (o : VerificationOptions) : bool :=
  negb (violates FolderOrWebhook o) && negb (violates WebhookHttps o)
    && secret_missing o.

(** The error classes of the specification; the source throws plain
    [Error]s and tells them apart by message only. *)
Definition ConfigurationError (e : JsError) : Prop := e = Error MSG_API_KEY.

Definition ValidationError (e : JsError) : Prop :=
  exists r : Rule, e = Error (rule_message r).

Definition DuplicateIdError (e : JsError) : Prop := e = Error MSG_DUPLICATE.

(** [error.response && error.response.status === 409] *)
Definition is_conflict (error : JsError) : bool :=
  match response_of error with
  | Some response => (status response =? 409)%Z
  | None => false
  end.

(** The error of line 137, when [expiration] is a date that
    [toISOString] refuses. *)
Definition expiration_error (o : VerificationOptions) : option JsError :=
  match expiration o with
  | Some (ExpDate d) =>
      match toISOString d with
      | inl e => Some e
      | inr _ => None
      end
  | _ => None
  end.

(** [formattedExpiration] once lines 135-138 have run: it still holds the
    date when line 137 threw. *)
Definition formatted_expiration (o : VerificationOptions)
  : option Expiration :=
  match expiration o with
  | Some (ExpDate d) =>
      match toISOString d with
      | inr iso => Some (ExpString iso)
      | inl _ => expiration o
      end
  | _ => expiration o
  end.

(** The object literal of lines 140-161, before any key is removed. *)
Definition assemble (o : VerificationOptions) : JsObject :=
  [ ("id", JString (id o));
    ("service_name", JString (service_name o));
    ("chain", JString (chain o));
    ("internal_id", of_string (internal_id o));
    ("webhook", of_string (webhook o));
    ("expiration", of_expiration (formatted_expiration o));
    ("secret", of_string (secret o));
    ("redirect_url", of_string (redirect_url o));
    ("one_time", JBool (or_default false (one_time o)));
    ("folder_id", of_string (folder_id o));
    ("custom_fields",
      JArray (map CustomField_value (or_default [] (custom_fields o))));
    ("token_gate", JBool (or_default false (token_gate o)));
    ("token_address", of_string (token_address o));
    ("token_amount", of_number (token_amount o));
    ("is_nft", JBool (or_default false (is_nft o)));
    ("force_email_verification",
      JBool (or_default false (force_email_verification o)));
    ("force_telegram_verification",
      JBool (or_default false (force_telegram_verification o)));
    ("force_twitter_verification",
      JBool (or_default false (force_twitter_verification o)));
    ("force_telephone_verification",
      JBool (or_default false (force_telephone_verification o)));
    ("force_discord_verification",
      JBool (or_default false (force_discord_verification o))) ].

(** The body of the POST to [/new]. *)
Definition payload (o : VerificationOptions) : JsObject :=
  remove_undefined (assemble o).

Definition new_request (this : Walver) (o : VerificationOptions) : Request :=
  {| req_client := client this;
     req_method := POST;
     req_path := "/new";
     req_data := payload o |}.

(** The world after a warning, and after a request. *)
Definition logged (msg : string) (w : World) : World :=
  {| process_env := process_env w;
     console := console w ++ [msg];
     network := network w |}.

Definition sent (req : Request) (w : World) : World :=
  {| process_env := process_env w;
     console := console w;
     network := network w ++ [req] |}.

(** What the [try]/[catch] around the POST makes of the reply. *)
Definition outcome (respond : Request -> JsError + JsValue) (this : Walver)
    (o : VerificationOptions) : Completion JsValue :=
  match respond (new_request this o) with
  | inr body => Return body
  | inl error =>
      Throw (if is_conflict error then Error MSG_DUPLICATE else error)
  end.

(** Keys of the payload that have no default: the caller may leave each
    unset, and the second component tells whether it did. *)
Definition undefaulted_fields : list (string * (VerificationOptions -> bool)) :=
  let unset {A : Type} (v : option A) : bool :=
    match v with Some _ => false | None => true end in
  [ ("internal_id", fun o => unset (internal_id o));
    ("webhook", fun o => unset (webhook o));
    ("expiration", fun o => unset (expiration o));
    ("secret", fun o => unset (secret o));
    ("redirect_url", fun o => unset (redirect_url o));
    ("folder_id", fun o => unset (folder_id o));
    ("token_address", fun o => unset (token_address o));
    ("token_amount", fun o => unset (token_amount o)) ].

(** Boolean test for duplicate-free key lists. *)
Fixpoint distinct (l : list string) : bool :=
  match l with
  | [] => true
  | k :: l' => negb (existsb (String.eqb k) l') && distinct l'
  end.

(** ** Sample inputs *)

Definition world0 : World :=
  {| process_env := []; console := []; network := [] |}.

Definition accept : Request -> JsError + JsValue :=
  fun _ => inr (JObject [("url", JString "https://walver.io/v/v1")]).

Definition reject (e : JsError) : Request -> JsError + JsValue :=
  fun _ => inl e.

Definition walver0 : Walver :=
  {| apiKey := "key";
     baseUrl := "https://walver.io";
     client := axios_create "https://walver.io" (number_of_Z 10000) "key" |}.

(** [{ id: 'v1', service_name: 'Acme', chain: 'ETH' }] *)
Definition minimal : VerificationOptions :=
  {| id := "v1"; service_name := "Acme"; chain := "ETH";
     internal_id := None; webhook := None; expiration := None;
     secret := None; redirect_url := None; one_time := None;
     folder_id := None; custom_fields := None; token_gate := None;
     token_address := None; token_amount := None; is_nft := None;
     force_email_verification := None; force_telegram_verification := None;
     force_twitter_verification := None;
     force_telephone_verification := None;
     force_discord_verification := None |}.

Definition with_folder_id (v : option string) (o : VerificationOptions)
  : VerificationOptions :=
  {| id := id o; service_name := service_name o; chain := chain o;
     internal_id := internal_id o; webhook := webhook o;
     expiration := expiration o; secret := secret o;
     redirect_url := redirect_url o; one_time := one_time o;
     folder_id := v; custom_fields := custom_fields o;
     token_gate := token_gate o; token_address := token_address o;
     token_amount := token_amount o; is_nft := is_nft o;
     force_email_verification := force_email_verification o;
     force_telegram_verification := force_telegram_verification o;
     force_twitter_verification := force_twitter_verification o;
     force_telephone_verification := force_telephone_verification o;
     force_discord_verification := force_discord_verification o |}.

Definition with_webhook (v : option string) (o : VerificationOptions)
  : VerificationOptions :=
  {| id := id o; service_name := service_name o; chain := chain o;
     internal_id := internal_id o; webhook := v;
     expiration := expiration o; secret := secret o;
     redirect_url := redirect_url o; one_time := one_time o;
     folder_id := folder_id o; custom_fields := custom_fields o;
     token_gate := token_gate o; token_address := token_address o;
     token_amount := token_amount o; is_nft := is_nft o;
     force_email_verification := force_email_verification o;
     force_telegram_verification := force_telegram_verification o;
     force_twitter_verification := force_twitter_verification o;
     force_telephone_verification := force_telephone_verification o;
     force_discord_verification := force_discord_verification o |}.

Definition with_expiration (v : option Expiration) (o : VerificationOptions)
  : VerificationOptions :=
  {| id := id o; service_name := service_name o; chain := chain o;
     internal_id := internal_id o; webhook := webhook o;
     expiration := v; secret := secret o;
     redirect_url := redirect_url o; one_time := one_time o;
     folder_id := folder_id o; custom_fields := custom_fields o;
     token_gate := token_gate o; token_address := token_address o;
     token_amount := token_amount o; is_nft := is_nft o;
     force_email_verification := force_email_verification o;
     force_telegram_verification := force_telegram_verification o;
     force_twitter_verification := force_twitter_verification o;
     force_telephone_verification := force_telephone_verification o;
     force_discord_verification := force_discord_verification o |}.

Definition with_token_gate (g : option bool) (a : option string)
    (n : option number) (o : VerificationOptions) : VerificationOptions :=
  {| id := id o; service_name := service_name o; chain := chain o;
     internal_id := internal_id o; webhook := webhook o;
     expiration := expiration o; secret := secret o;
     redirect_url := redirect_url o; one_time := one_time o;
     folder_id := folder_id o; custom_fields := custom_fields o;
     token_gate := g; token_address := a;
     token_amount := n; is_nft := is_nft o;
     force_email_verification := force_email_verification o;
     force_telegram_verification := force_telegram_verification o;
     force_twitter_verification := force_twitter_verification o;
     force_telephone_verification := force_telephone_verification o;
     force_discord_verification := force_discord_verification o |}.

Definition with_force_email (flag : option bool)
    (fields : option (list CustomField)) (o : VerificationOptions)
  : VerificationOptions :=
  {| id := id o; service_name := service_name o; chain := chain o;
     internal_id := internal_id o; webhook := webhook o;
     expiration := expiration o; secret := secret o;
     redirect_url := redirect_url o; one_time := one_time o;
     folder_id := folder_id o; custom_fields := fields;
     token_gate := token_gate o; token_address := token_address o;
     token_amount := token_amount o; is_nft := is_nft o;
     force_email_verification := flag;
     force_telegram_verification := force_telegram_verification o;
     force_twitter_verification := force_twitter_verification o;
     force_telephone_verification := force_telephone_verification o;
     force_discord_verification := force_discord_verification o |}.

(** [{ id: 'v1', service_name: 'Acme', chain: 'ETH', folder_id: 'f1' }] *)
Definition in_folder : VerificationOptions :=
  with_folder_id (Some "f1") minimal.

(** [{ ..., webhook: 'http://example.com' }] *)
Definition http_webhook : VerificationOptions :=
  with_webhook (Some "http://example.com") minimal.

(** [{ ..., webhook: 'https://example.com/hook' }] *)
Definition https_webhook : VerificationOptions :=
  with_webhook (Some "https://example.com/hook") minimal.

(** [{ ..., folder_id: '' }] *)
Definition empty_folder_id : VerificationOptions :=
  with_folder_id (Some "") minimal.

(** [{ ..., folder_id: 'f1', webhook: '' }] *)
Definition empty_webhook : VerificationOptions :=
  with_webhook (Some "") in_folder.

(** [{ ..., folder_id: 'f1', token_gate: true, token_address: '0xabc', token_amount: NaN }] *)
Definition nan_amount : VerificationOptions :=
  with_token_gate (Some true) (Some "0xabc") (Some S754_nan) in_folder.

(** [{ ..., folder_id: 'f1', token_gate: true, token_address: '0xabc', token_amount: 0 }] *)
Definition zero_amount : VerificationOptions :=
  with_token_gate (Some true) (Some "0xabc") (Some (number_of_Z 0)) in_folder.

(** [{ ..., folder_id: 'f1', token_gate: true, token_address: '0xabc', token_amount: 5 }] *)
Definition five_tokens : VerificationOptions :=
  with_token_gate (Some true) (Some "0xabc") (Some (number_of_Z 5)) in_folder.

Definition email_field : CustomField :=
  {| type := "email"; attributes := [("label", JString "Your Email")] |}.

Definition wallet_field : CustomField :=
  {| type := "text"; attributes := [("label", JString "Nickname")] |}.

(** [{ ..., folder_id: 'f1', force_email_verification: true, custom_fields: [] }] *)
Definition forced_email_no_field : VerificationOptions :=
  with_force_email (Some true) (Some []) in_folder.

(** [{ ..., folder_id: 'f1', force_email_verification: true,
       custom_fields: [{ type: 'text', ... }, { type: 'email', ... }] }] *)
Definition forced_email_with_field : VerificationOptions :=
  with_force_email (Some true) (Some [wallet_field; email_field]) in_folder.

(** [{ ..., folder_id: 'f1', expiration: new Date(1709210096789) }] *)
Definition dated : VerificationOptions :=
  with_expiration (Some (ExpDate (new_Date 1709210096789))) in_folder.

(** [{ ..., folder_id: 'f1', expiration: new Date(NaN) }] *)
Definition invalid_date : VerificationOptions :=
  with_expiration (Some (ExpDate InvalidDate)) in_folder.

(** [{ ..., folder_id: 'f1', expiration: new Date(8640000000000001),
       force_email_verification: true, custom_fields: [] }] *)
Definition invalid_date_forced_email : VerificationOptions :=
  with_expiration (Some (ExpDate (new_Date 8640000000000001)))
    forced_email_no_field.

(** [{ id: 'v1', service_name: 'Acme', chain: 'ETH',
       expiration: new Date(NaN) }] *)
Definition invalid_date_minimal : VerificationOptions :=
  with_expiration (Some (ExpDate InvalidDate)) minimal.

(** [{ ..., folder_id: 'f1', token_gate: true, token_address: '0xabc',
       token_amount: 0, expiration: new Date(NaN) }] *)
Definition invalid_date_zero_amount : VerificationOptions :=
  with_expiration (Some (ExpDate InvalidDate)) zero_amount.

(** [{ ..., webhook: 'http://example.com', expiration: new Date(NaN) }] *)
Definition invalid_date_http_webhook : VerificationOptions :=
  with_expiration (Some (ExpDate InvalidDate)) http_webhook.

(** A reply with status 409. *)
Definition conflict : JsError :=
  AxiosError "Request failed with status code 409"
    (Some {| status := 409; response_data := JUndefined |}).

(** A failure without any reply. *)
Definition timed_out : JsError :=
  AxiosError "timeout of 10000ms exceeded" None.

Definition world_with_key : World :=
  {| process_env := [("WALVER_API_KEY", "env-key")];
     console := [];
     network := [] |}.

(** ** The public interface as data *)

(** One call of a public method, with its arguments. *)
Inductive Call : Type :=
| CreateFolder (name : string) (description : option string)
    (customFields : option (list CustomField))
| GetFolders
| GetFolder (folderId : string)
| GetFolderVerifications (folderId : string)
| CreateApiKey (name : string) (description : option string)
| GetApiKeys
| DeleteApiKey (apiKeyId : string)
| CreateVerification (options : VerificationOptions).

Definition invoke (respond : Request -> JsError + JsValue) (this : Walver)
    (call : Call) : M JsValue :=
  match call with
  | CreateFolder name description customFields =>
      createFolder respond this name description customFields
  | GetFolders => getFolders respond this
  | GetFolder folderId => getFolder respond this folderId
  | GetFolderVerifications folderId =>
      getFolderVerifications respond this folderId
  | CreateApiKey name description => createApiKey respond this name description
  | GetApiKeys => getApiKeys respond this
  | DeleteApiKey apiKeyId => deleteApiKey respond this apiKeyId
  | CreateVerification options => createVerification respond this options
  end.

(** The methods that only relay: all but [createVerification]. *)
Definition relays (call : Call) : bool :=
  match call with
  | CreateVerification _ => false
  | _ => true
  end.

(** Method and path of the endpoint a call addresses. *)
Definition endpoint (call : Call) : HttpMethod * string :=
  match call with
  | CreateFolder _ _ _ => (POST, "/creator/folders")
  | GetFolders => (GET, "/creator/folders")
  | GetFolder folderId => (GET, ("/creator/folders/" ++ folderId)%string)
  | GetFolderVerifications folderId =>
      (GET, ("/creator/folders/" ++ folderId ++ "/verifications")%string)
  | CreateApiKey _ _ => (POST, "/creator/api-keys")
  | GetApiKeys => (GET, "/creator/api-keys")
  | DeleteApiKey apiKeyId =>
      (DELETE, ("/creator/api-keys/" ++ apiKeyId)%string)
  | CreateVerification _ => (POST, "/new")
  end.

(** The body a call sends: empty for a GET or a DELETE. *)
Definition body (call : Call) : JsObject :=
  match call with
  | CreateFolder name description customFields =>
      [ ("name", JString name);
        ("description", of_string description);
        ("custom_fields",
          JArray (map CustomField_value
                    match customFields with Some a => a | None => [] end)) ]
  | CreateApiKey name description =>
      [ ("name", JString name); ("description", of_string description) ]
  | CreateVerification options => payload options
  | _ => []
  end.

Definition request_of (this : Walver) (call : Call) : Request :=
  {| req_client := client this;
     req_method := fst (endpoint call);
     req_path := snd (endpoint call);
     req_data := body call |}.

(** The reply, or the error, exactly as the transport gave it. *)
Definition relayed (respond : Request -> JsError + JsValue) (req : Request)
  : Completion JsValue :=
  match respond req with
  | inr reply => Return reply
  | inl error => Throw error
  end.

(** Updates of single options. *)
Definition with_secret (v : option string) (o : VerificationOptions)
  : VerificationOptions :=
  {| id := id o; service_name := service_name o; chain := chain o;
     internal_id := internal_id o; webhook := webhook o;
     expiration := expiration o; secret := v;
     redirect_url := redirect_url o; one_time := one_time o;
     folder_id := folder_id o; custom_fields := custom_fields o;
     token_gate := token_gate o; token_address := token_address o;
     token_amount := token_amount o; is_nft := is_nft o;
     force_email_verification := force_email_verification o;
     force_telegram_verification := force_telegram_verification o;
     force_twitter_verification := force_twitter_verification o;
     force_telephone_verification := force_telephone_verification o;
     force_discord_verification := force_discord_verification o |}.

Definition with_custom_fields (v : option (list CustomField))
    (o : VerificationOptions) : VerificationOptions :=
  {| id := id o; service_name := service_name o; chain := chain o;
     internal_id := internal_id o; webhook := webhook o;
     expiration := expiration o; secret := secret o;
     redirect_url := redirect_url o; one_time := one_time o;
     folder_id := folder_id o; custom_fields := v;
     token_gate := token_gate o; token_address := token_address o;
     token_amount := token_amount o; is_nft := is_nft o;
     force_email_verification := force_email_verification o;
     force_telegram_verification := force_telegram_verification o;
     force_twitter_verification := force_twitter_verification o;
     force_telephone_verification := force_telephone_verification o;
     force_discord_verification := force_discord_verification o |}.

(** The key under which a channel's force flag travels. *)
Definition force_key (c : Channel) : string :=
  "force_" ++ channel_name c ++ "_verification".

(** More sample inputs. *)

(** [{ ..., webhook: 'https://example.com/hook', secret: 's3cret' }] *)
Definition signed_webhook : VerificationOptions :=
  with_secret (Some "s3cret") https_webhook.

(** The client of [new Walver('key', 'https://api.example.com//')]. *)
Definition trailing_client : Walver :=
  {| apiKey := "key";
     baseUrl := "https://api.example.com/";
     client := axios_create "https://api.example.com/" (number_of_Z 10000)
                 "key" |}.

(** The client of [new Walver()] with [WALVER_API_KEY=env-key]. *)
Definition env_client : Walver :=
  {| apiKey := "env-key";
     baseUrl := "https://walver.io";
     client := axios_create "https://walver.io" (number_of_Z 10000)
                 "env-key" |}.

(** [{ toString: undefined, name: 'n', value: undefined }] *)
Definition shadowing_object : JsObject :=
  [ ("toString", JUndefined); ("name", JString "n"); ("value", JUndefined) ].

(** * Properties *)

(** ** The runtime model on sample values *)

Example toISOString_epoch :
  toISOString (new_Date 0) = inr "1970-01-01T00:00:00.000Z".
Proof. reflexivity. Qed.

Example toISOString_leap_day :
  toISOString (new_Date 1709210096789) = inr "2024-02-29T12:34:56.789Z".
Proof. vm_compute. reflexivity. Qed.

Example toISOString_before_epoch :
  toISOString (new_Date (-1)) = inr "1969-12-31T23:59:59.999Z".
Proof. vm_compute. reflexivity. Qed.

Example toISOString_latest :
  toISOString (new_Date 8640000000000000) = inr "+275760-09-13T00:00:00.000Z".
Proof. vm_compute. reflexivity. Qed.

Example toISOString_earliest :
  toISOString (new_Date (-8640000000000000))
  = inr "-271821-04-20T00:00:00.000Z".
Proof. vm_compute. reflexivity. Qed.

Example toISOString_out_of_range :
  toISOString (new_Date 8640000000000001)
  = inl (RangeError "Invalid time value").
Proof. reflexivity. Qed.

Example instant_leap_day :
  ISO.instant "2024-02-29T12:34:56.789Z" = Some 1709210096789%Z.
Proof. vm_compute. reflexivity. Qed.

Example force_messages :
  map MSG_FORCE channels =
  [ "custom_fields[email] is required when using force_email_verification";
    "custom_fields[telegram] is required when using force_telegram_verification";
    "custom_fields[twitter] is required when using force_twitter_verification";
    "custom_fields[telephone] is required when using force_telephone_verification";
    "custom_fields[discord] is required when using force_discord_verification" ].
Proof. reflexivity. Qed.

(** ** Truthiness *)

Lemma truthy_string_false (v : option string) :
  truthy_string v = false <-> v = None \/ v = Some "".
Proof.
  destruct v as [s|]; simpl.
  - unfold string_truthy. rewrite negb_false_iff, String.eqb_eq.
    split.
    + intros ->. now right.
    + intros [H|H]; [discriminate | now injection H].
  - split; auto.
Qed.

Lemma truthy_string_nonempty (v : option string) :
  truthy_string v = true <-> exists s, v = Some s /\ s <> "".
Proof.
  destruct v as [s|]; simpl.
  - unfold string_truthy. rewrite negb_true_iff, String.eqb_neq.
    split.
    + intros H. now exists s.
    + intros (s' & E & H). now injection E as ->.
  - split; [discriminate | intros (s & E & _); discriminate].
Qed.

Lemma nonempty_truthy (v : option string) :
  nonempty v = (if truthy_string v then v else None).
Proof. destruct v as [s|]; simpl; [destruct (string_truthy s)|]; reflexivity. Qed.

Lemma truthy_number_false (v : option number) :
  truthy_number v = false <->
  v = None \/ (exists s, v = Some (S754_zero s)) \/ v = Some S754_nan.
Proof.
  destruct v as [[s| s | |s m e]|]; simpl; split; intros H;
    try discriminate; try reflexivity; eauto.
  - destruct H as [H|[[s' H]|H]]; discriminate.
  - destruct H as [H|[[s' H]|H]]; discriminate.
Qed.

Lemma number_truthy_true (n : number) :
  number_truthy n = true <-> (forall s, n <> S754_zero s) /\ n <> S754_nan.
Proof.
  destruct n as [s| s | |s m e]; simpl; split;
    try (intros _; split; [intros s'|]; discriminate);
    try reflexivity; try discriminate.
  - intros [H _]. now destruct (H s).
  - intros [_ H]. now destruct H.
Qed.

(** ** Objects: removing the undefined properties is a filter *)

Lemma distinct_NoDup (l : list string) : distinct l = true -> NoDup l.
Proof.
  induction l as [|k l IH]; simpl; intros H.
  - constructor.
  - apply andb_true_iff in H as [Hk Hl].
    constructor; [|auto].
    intros Hin. apply negb_true_iff in Hk.
    assert (existsb (String.eqb k) l = true) as E.
    { apply existsb_exists. exists k. split; [exact Hin | apply String.eqb_refl]. }
    congruence.
Qed.

Lemma delete_absent (key : string) (o : JsObject) :
  ~ In key (keys o) -> delete key o = o.
Proof.
  induction o as [|[k v] o IH]; simpl; intros H; [reflexivity|].
  destruct (String.eqb_spec k key) as [->|Hk]; simpl.
  - exfalso. apply H. now left.
  - f_equal. apply IH. intros Hin. apply H. now right.
Qed.

Lemma filter_absent (key : string) (p : JsValue -> bool) (o : JsObject) :
  ~ In key (keys o) ->
  filter (fun kv => negb ((fst kv =? key) && p (snd kv))) o = o.
Proof.
  induction o as [|[k v] o IH]; simpl; intros H; [reflexivity|].
  destruct (String.eqb_spec k key) as [->|Hk]; simpl.
  - exfalso. apply H. now left.
  - f_equal. apply IH. intros Hin. apply H. now right.
Qed.

Lemma get_cons (key k : string) (v : JsValue) (o : JsObject) :
  get key ((k, v) :: o) = if k =? key then v else get key o.
Proof. unfold get. simpl. now destruct (k =? key). Qed.

(** One iteration of the [forEach] callback. *)
Lemma remove_one (key : string) (o : JsObject) :
  NoDup (keys o) ->
  (if is_undefined (get key o) then delete key o else o) =
  filter (fun kv => negb ((fst kv =? key) && is_undefined (snd kv))) o.
Proof.
  induction o as [|[k v] o IH]; intros ND.
  - simpl. now destruct (is_undefined (get key [])).
  - simpl in ND. apply NoDup_cons_iff in ND as [Hk ND].
    specialize (IH ND). rewrite get_cons. simpl.
    destruct (String.eqb_spec k key) as [->|Hne]; simpl.
    + destruct (is_undefined v); simpl.
      * rewrite filter_absent by exact Hk. now apply delete_absent.
      * now rewrite filter_absent.
    + rewrite <- IH. now destruct (is_undefined (get key o)).
Qed.

Lemma keys_filter_NoDup (p : string * JsValue -> bool) (o : JsObject) :
  NoDup (keys o) -> NoDup (keys (filter p o)).
Proof.
  induction o as [|[k v] o IH]; simpl; intros ND; [constructor|].
  apply NoDup_cons_iff in ND as [Hk ND].
  destruct (p (k, v)); simpl; [|auto].
  constructor; [|auto].
  intros Hin. apply Hk. unfold keys in *.
  apply in_map_iff in Hin as (kv & E & Hin).
  apply filter_In in Hin as [Hin _].
  apply in_map_iff. now exists kv.
Qed.

Lemma filter_twice {A : Type} (p q : A -> bool) (l : list A) :
  filter q (filter p l) = filter (fun x => p x && q x) l.
Proof.
  induction l as [|x l IH]; simpl; [reflexivity|].
  destruct (p x); simpl; [destruct (q x)|]; now rewrite IH.
Qed.

(** The loop over a list of keys, for any object with distinct keys. *)
Lemma remove_loop (ks : list string) :
  forall o : JsObject,
    NoDup (keys o) ->
    fold_left
      (fun data key =>
         if is_undefined (get key data) then delete key data else data)
      ks o =
    filter
      (fun kv => negb (existsb (String.eqb (fst kv)) ks && is_undefined (snd kv)))
      o.
Proof.
  induction ks as [|key ks IH]; intros o ND; simpl.
  - symmetry. apply forallb_filter_id. apply forallb_forall. reflexivity.
  - rewrite remove_one by exact ND.
    rewrite IH by now apply keys_filter_NoDup.
    rewrite filter_twice. apply filter_ext. intros [k v]. simpl.
    destruct (k =? key), (existsb (String.eqb k) ks), (is_undefined v);
      reflexivity.
Qed.

Lemma remove_undefined_filter (data : JsObject) :
  NoDup (keys data) ->
  remove_undefined data =
  filter (fun kv => negb (is_undefined (snd kv))) data.
Proof.
  intros ND. unfold remove_undefined. rewrite remove_loop by exact ND.
  apply filter_ext_in. intros [k v] Hin. simpl.
  assert (existsb (String.eqb k) (keys data) = true) as ->.
  { apply existsb_exists. exists k. split; [|apply String.eqb_refl].
    unfold keys. apply in_map_iff. now exists (k, v). }
  reflexivity.
Qed.

Lemma assoc_filter_defined (key : string) (o : JsObject) :
  NoDup (keys o) ->
  assoc key (filter (fun kv => negb (is_undefined (snd kv))) o) =
  match assoc key o with
  | Some v => if is_undefined v then None else Some v
  | None => None
  end.
Proof.
  induction o as [|[k v] o IH]; simpl; intros ND; [reflexivity|].
  apply NoDup_cons_iff in ND as [Hk ND]. specialize (IH ND).
  destruct (String.eqb_spec k key) as [->|Hne].
  - destruct (is_undefined v) eqn:U; simpl.
    + rewrite IH.
      destruct (assoc key o) eqn:E; [|reflexivity].
      exfalso. apply Hk. clear - E.
      induction o as [|[k' v'] o IH]; simpl in *; [discriminate|].
      destruct (String.eqb_spec k' key); [now left | right; auto].
    + now rewrite String.eqb_refl.
  - destruct (is_undefined v); simpl; [exact IH|].
    apply String.eqb_neq in Hne. now rewrite Hne.
Qed.

Lemma assoc_keys {A : Type} (key : string) (l : list (string * A)) :
  assoc key l = None <-> ~ In key (map fst l).
Proof.
  induction l as [|[k v] l IH]; simpl.
  - tauto.
  - destruct (String.eqb_spec k key) as [->|Hne].
    + split; [discriminate | intros H; exfalso; apply H; now left].
    + rewrite IH. tauto.
Qed.

Lemma assemble_keys_distinct (o : VerificationOptions) :
  NoDup (keys (assemble o)).
Proof. apply distinct_NoDup. reflexivity. Qed.

Lemma new_request_data (this : Walver) (o : VerificationOptions) :
  req_data (new_request this o) = payload o.
Proof. reflexivity. Qed.

(** The payload is the literal without its undefined properties, in the
    literal's order. *)
Lemma payload_filter (o : VerificationOptions) :
  payload o = filter (fun kv => negb (is_undefined (snd kv))) (assemble o).
Proof.
  unfold payload. apply remove_undefined_filter, assemble_keys_distinct.
Qed.

(** The payload, property by property. *)
Lemma payload_lookup (o : VerificationOptions) (key : string) :
  assoc key (payload o) =
  match assoc key (assemble o) with
  | Some v => if is_undefined v then None else Some v
  | None => None
  end.
Proof.
  rewrite payload_filter.
  apply assoc_filter_defined, assemble_keys_distinct.
Qed.

(** ** The checks, one at a time *)

Lemma check_folder_or_webhook_run (o : VerificationOptions) (w : World) :
  check_folder_or_webhook (folder_id o) (webhook o) w =
  if violates FolderOrWebhook o
  then (Throw (Error MSG_FOLDER_OR_WEBHOOK), w)
  else (Return tt, w).
Proof.
  unfold check_folder_or_webhook, when. simpl.
  now destruct (negb (truthy_string (folder_id o))
                && negb (truthy_string (webhook o))).
Qed.

Lemma warn_missing_secret_run (o : VerificationOptions) (w : World) :
  warn_missing_secret (webhook o) (secret o) w =
  (Return tt, if secret_missing o then logged MSG_SECRET_WARNING w else w).
Proof.
  unfold warn_missing_secret, when, secret_missing.
  now destruct (truthy_string (webhook o) && negb (truthy_string (secret o))).
Qed.

Lemma check_webhook_https_run (o : VerificationOptions) (w : World) :
  check_webhook_https (webhook o) w =
  if violates WebhookHttps o
  then (Throw (Error MSG_WEBHOOK_HTTPS), w)
  else (Return tt, w).
Proof.
  unfold check_webhook_https, when. simpl.
  now destruct (match nonempty (webhook o) with
                | Some url => negb (startsWith url "https://")
                | None => false
                end).
Qed.

Lemma check_token_gate_run (o : VerificationOptions) (w : World) :
  check_token_gate (or_default false (token_gate o)) (token_address o)
    (token_amount o) w =
  if violates TokenAddress o then (Throw (Error MSG_TOKEN_ADDRESS), w)
  else if violates TokenAmount o then (Throw (Error MSG_TOKEN_AMOUNT), w)
  else (Return tt, w).
Proof.
  unfold check_token_gate, when, bind. simpl.
  destruct (or_default false (token_gate o)); simpl; [|reflexivity].
  destruct (truthy_string (token_address o)); simpl; [|reflexivity].
  now destruct (truthy_number (token_amount o)).
Qed.

(** An empty array has no element of any type: the length test of the
    source never decides alone. *)
Lemma empty_has_no_field (c : Channel) (fields : list CustomField) :
  (length fields =? 0)%nat = true -> has_field c fields = false.
Proof. destruct fields; [reflexivity | discriminate]. Qed.

Lemma check_force_run (c : Channel) (flag : bool) (fields : list CustomField)
    (w : World) :
  check_force c flag fields w =
  if flag && negb (has_field c fields)
  then (Throw (Error (MSG_FORCE c)), w)
  else (Return tt, w).
Proof.
  unfold check_force, when, bind, array_truthy. simpl.
  destruct flag; simpl; [|reflexivity].
  destruct (length fields =? 0)%nat eqn:L.
  - now rewrite (empty_has_no_field c fields L).
  - unfold ret, has_field.
    now destruct (existsb (fun field => type field =? channel_name c) fields).
Qed.

Lemma check_force_violates (c : Channel) (o : VerificationOptions) (w : World) :
  check_force c (or_default false (force_flag c o))
    (or_default [] (custom_fields o)) w =
  if violates (Force c) o
  then (Throw (Error (MSG_FORCE c)), w)
  else (Return tt, w).
Proof. apply check_force_run. Qed.

Lemma has_field_exists (c : Channel) (fields : list CustomField) :
  has_field c fields = true <->
  exists field, In field fields /\ type field = channel_name c.
Proof.
  unfold has_field. rewrite existsb_exists.
  split; intros (f & Hin & H); exists f; split; auto;
    now apply String.eqb_eq.
Qed.

Lemma has_field_none (c : Channel) (fields : list CustomField) :
  has_field c fields = false <->
  forall field, In field fields -> type field <> channel_name c.
Proof.
  split.
  - intros H f Hin E.
    assert (has_field c fields = true) by (apply has_field_exists; eauto).
    congruence.
  - intros H. destruct (has_field c fields) eqn:E; [|reflexivity].
    apply has_field_exists in E as (f & Hin & E). now apply H in Hin.
Qed.

(** ** The whole of [createVerification] *)

Section Run.

Variable respond : Request -> JsError + JsValue.
Variable this : Walver.

(** Lines 135-138: the expiration is formatted, or the call ends there. *)
Lemma expiration_step (o : VerificationOptions) (w : World) :
  match expiration o with
  | Some (ExpDate d) =>
      iso <- lift (toISOString d) ;; ret (Some (ExpString iso))
  | _ => ret (expiration o)
  end w
  = match expiration_error o with
    | Some e => (Throw e, w)
    | None => (Return (formatted_expiration o), w)
    end.
Proof.
  unfold expiration_error, formatted_expiration.
  destruct (expiration o) as [[s|d]|]; try reflexivity.
  unfold bind. now destruct (toISOString d).
Qed.

(** Every run of [createVerification]: a date that cannot be formatted
    ends the call before anything else; otherwise the warning is logged as
    soon as the presence rule has passed, the first violated rule throws,
    and with no violated rule the payload goes out. *)
Lemma createVerification_run (o : VerificationOptions) (w : World) :
  createVerification respond this o w =
  match expiration_error o with
  | Some e => (Throw e, w)
  | None =>
      let w1 := if warned o then logged MSG_SECRET_WARNING w else w in
      match first_violation o with
      | Some r => (Throw (Error (rule_message r)), w1)
      | None => (outcome respond this o, sent (new_request this o) w1)
      end
  end.
Proof.
  unfold createVerification. cbv zeta. unfold bind at 1.
  rewrite expiration_step.
  destruct (expiration_error o) as [e|]; [reflexivity|].
  unfold first_violation, rule_order, warned, outcome.
  unfold bind at 1.
  rewrite check_folder_or_webhook_run. cbn [find].
  destruct (violates FolderOrWebhook o); [reflexivity|].
  unfold bind at 1. rewrite warn_missing_secret_run.
  cbn [negb andb].
  set (w1 := if secret_missing o then logged MSG_SECRET_WARNING w else w).
  unfold bind at 1. rewrite check_webhook_https_run.
  destruct (violates WebhookHttps o); [reflexivity|].
  unfold bind at 1. rewrite check_token_gate_run.
  destruct (violates TokenAddress o); [reflexivity|].
  destruct (violates TokenAmount o); [reflexivity|].
  unfold bind at 1. rewrite (check_force_violates email).
  destruct (violates (Force email) o); [reflexivity|].
  unfold bind at 1. rewrite (check_force_violates telegram).
  destruct (violates (Force telegram) o); [reflexivity|].
  unfold bind at 1. rewrite (check_force_violates twitter).
  destruct (violates (Force twitter) o); [reflexivity|].
  unfold bind at 1. rewrite (check_force_violates telephone).
  destruct (violates (Force telephone) o); [reflexivity|].
  unfold bind at 1. rewrite (check_force_violates discord).
  destruct (violates (Force discord) o); [reflexivity|].
  unfold try_catch, _post, send, throw, new_request, payload, assemble.
  destruct (respond _) as [error|body]; [|reflexivity].
  unfold is_conflict.
  destruct (response_of error) as [r|]; [|reflexivity].
  now destruct (status r =? 409)%Z.
Qed.

Lemma rule_order_complete (r : Rule) : In r rule_order.
Proof. destruct r as [| | | |[]]; simpl; tauto. Qed.

Lemma rule_message_injective (r r' : Rule) :
  rule_message r = rule_message r' -> r = r'.
Proof.
  destruct r as [| | | |[]], r' as [| | | |[]]; intros H;
    solve [reflexivity | discriminate H].
Qed.

Lemma first_violation_violated (o : VerificationOptions) (r : Rule) :
  first_violation o = Some r -> violates r o = true.
Proof. intros H. now apply find_some in H. Qed.

Lemma violation_found (o : VerificationOptions) (r : Rule) :
  violates r o = true -> exists r', first_violation o = Some r'.
Proof.
  intros V. destruct (first_violation o) as [r'|] eqn:F; [now exists r'|].
  pose proof (find_none _ _ F r (rule_order_complete r)) as N.
  simpl in N. congruence.
Qed.

Lemma only_violation_first (o : VerificationOptions) (r : Rule) :
  violates r o = true ->
  (forall r', r' <> r -> violates r' o = false) ->
  first_violation o = Some r.
Proof.
  intros V Others.
  destruct (violation_found o r V) as [r' F]. rewrite F. f_equal.
  apply first_violation_violated in F.
  destruct r as [| | | |[]], r' as [| | | |[]]; try reflexivity;
    (rewrite Others in F; [discriminate F | discriminate]).
Qed.

Lemma network_grows (l : list Request) (req : Request) : l ++ [req] <> l.
Proof.
  intros E. apply (f_equal (@length Request)) in E.
  rewrite length_app in E. simpl in E. lia.
Qed.

Lemma network_after_warning (o : VerificationOptions) (w : World) :
  network (if warned o then logged MSG_SECRET_WARNING w else w) = network w.
Proof. now destruct (warned o). Qed.

(** The only error line 137 can raise. *)
Lemma expiration_error_is_range (o : VerificationOptions) (e : JsError) :
  expiration_error o = Some e -> e = RangeError "Invalid time value".
Proof.
  unfold expiration_error, toISOString.
  destruct (expiration o) as [[s|d]|]; try discriminate.
  destruct (finite_time d); [discriminate|]. now intros [= <-].
Qed.

(** A date that cannot be formatted stops the call at once. *)
Lemma refused (o : VerificationOptions) (w : World) (e : JsError) :
  expiration_error o = Some e ->
  createVerification respond this o w = (Throw e, w).
Proof. intros D. rewrite createVerification_run. now rewrite D. Qed.

(** A violated rule stops the call before the transport is reached. *)
Lemma rejected (o : VerificationOptions) (w : World) (r : Rule) :
  expiration_error o = None ->
  first_violation o = Some r ->
  fst (createVerification respond this o w) = Throw (Error (rule_message r))
  /\ network (snd (createVerification respond this o w)) = network w.
Proof.
  intros D F. rewrite createVerification_run. rewrite D. cbv zeta.
  rewrite F. simpl.
  split; [reflexivity | apply network_after_warning].
Qed.

(** Conversely, a call that leaves the network untouched was stopped by
    line 137 or by the first violated rule. *)
Lemma rejected_inv (o : VerificationOptions) (w : World) :
  network (snd (createVerification respond this o w)) = network w ->
  (exists e, expiration_error o = Some e
             /\ createVerification respond this o w = (Throw e, w))
  \/ (expiration_error o = None
      /\ exists r, first_violation o = Some r
                   /\ fst (createVerification respond this o w)
                      = Throw (Error (rule_message r))).
Proof.
  rewrite createVerification_run.
  destruct (expiration_error o) as [e|]; [intros _; left; now exists e|].
  cbv zeta. destruct (first_violation o) as [r|]; simpl.
  - intros _. right. split; [reflexivity | now exists r].
  - rewrite network_after_warning. intros E.
    now apply network_grows in E.
Qed.

(** A request seen on the network is the POST of the payload, and no rule
    was violated. *)
Lemma transmitted_inv (o : VerificationOptions) (w : World) (req : Request) :
  network (snd (createVerification respond this o w)) = network w ++ [req] ->
  first_violation o = None /\ req = new_request this o.
Proof.
  rewrite createVerification_run.
  destruct (expiration_error o) as [e|].
  { simpl. intros E. symmetry in E. now apply network_grows in E. }
  cbv zeta.
  destruct (first_violation o) as [r|]; simpl;
    rewrite network_after_warning; intros E.
  - symmetry in E. now apply network_grows in E.
  - apply app_inv_head in E. split; [reflexivity | congruence].
Qed.

(** And its expiration, if a date, could be formatted. *)
Lemma transmitted_formatted (o : VerificationOptions) (w : World)
    (req : Request) :
  network (snd (createVerification respond this o w)) = network w ++ [req] ->
  expiration_error o = None.
Proof.
  rewrite createVerification_run.
  destruct (expiration_error o) as [e|]; [|reflexivity].
  simpl. intros E. symmetry in E. now apply network_grows in E.
Qed.

(** A rule that holds is never the one reported. *)
Lemma satisfied_not_reported (o : VerificationOptions) (w : World) (r : Rule)
    (e : JsError) :
  violates r o = false ->
  fst (createVerification respond this o w) = Throw e ->
  network (snd (createVerification respond this o w)) = network w ->
  e <> Error (rule_message r).
Proof.
  intros V T N E. subst e.
  destruct (rejected_inv o w N) as [(e & D & R)|(_ & r' & F & T')].
  - rewrite R in T. simpl in T. injection T as ->.
    apply expiration_error_is_range in D. discriminate D.
  - rewrite T in T'. injection T' as M.
    apply rule_message_injective in M. subst r'.
    apply first_violation_violated in F. congruence.
Qed.

End Run.

(** ** The order of the checks *)

Lemma violation_stops (respond : Request -> JsError + JsValue) (this : Walver)
    (o : VerificationOptions) (w : World) (r : Rule) :
  violates r o = true ->
  network (snd (createVerification respond this o w)) = network w.
Proof.
  intros V. rewrite createVerification_run.
  destruct (expiration_error o); [reflexivity|]. cbv zeta.
  destruct (violation_found o r V) as [r' ->]. simpl.
  apply network_after_warning.
Qed.

(** C1, as the specification orders the steps: with a webhook that is not
    https and no secret, the scheme rule is the first one violated and comes
    before the warning in that order, so no warning should be logged; the
    source logs the warning and then throws the scheme error.  And with an
    Invalid Date as [expiration] the same options object meets no check at
    all: line 137 throws first. *)
Lemma warning_precedes_scheme_check :
  first_violation http_webhook = Some WebhookHttps
  /\ spec_warned http_webhook = false
  /\ createVerification accept walver0 http_webhook world0
     = (Throw (Error MSG_WEBHOOK_HTTPS), logged MSG_SECRET_WARNING world0)
  /\ console (snd (createVerification accept walver0 http_webhook world0))
     <> console world0
        ++ (if spec_warned http_webhook then [MSG_SECRET_WARNING] else [])
  /\ createVerification accept walver0 invalid_date_http_webhook world0
     = (Throw (RangeError "Invalid time value"), world0).
Proof.
  repeat split; try reflexivity.
  vm_compute. discriminate.
Qed.

(** C1, amended: [createVerification] first formats [expiration]; a date
    that is an Invalid Date makes [toISOString] throw its RangeError there,
    before any check, warning or request.  Otherwise the checks run in the
    fixed, short-circuit order presence, missing-secret warning, webhook
    scheme, token address, token amount, then email, telegram, twitter,
    telephone and discord: the error thrown is the message of the first
    violated rule in [rule_order] and no request is issued; with no violated
    rule exactly one request, the POST of the payload, is issued.  The
    warning is logged exactly when the presence rule passes and a webhook
    comes without a secret, whatever the later rules say. *)
Theorem createVerification_check_order
    (respond : Request -> JsError + JsValue) (this : Walver)
    (o : VerificationOptions) (w : World) :
  let out := createVerification respond this o w in
  match expiration_error o with
  | Some e => e = RangeError "Invalid time value" /\ out = (Throw e, w)
  | None =>
      console (snd out)
        = console w ++ (if warned o then [MSG_SECRET_WARNING] else [])
      /\ match first_violation o with
         | Some r =>
             fst out = Throw (Error (rule_message r))
             /\ network (snd out) = network w
         | None =>
             fst out = outcome respond this o
             /\ network (snd out) = network w ++ [new_request this o]
         end
  end.
Proof.
  cbv zeta. rewrite createVerification_run.
  destruct (expiration_error o) as [e|] eqn:D.
  - split; [now apply (expiration_error_is_range o) | reflexivity].
  - cbv zeta. split.
    + destruct (first_violation o); simpl; destruct (warned o); simpl;
        now rewrite ?app_nil_r.
    + destruct (first_violation o); simpl; destruct (warned o); simpl; auto.
Qed.

(** ** Presence of a folder or a webhook *)

(** C2, as stated: a [folder_id] is supplied, as the empty string, and the
    presence check still rejects the call.  And with neither [folder_id] nor
    [webhook] but an Invalid Date as [expiration], the error is the
    RangeError of line 137, no ValidationError. *)
Lemma empty_folder_id_rejected :
  folder_id empty_folder_id <> None
  /\ createVerification accept walver0 empty_folder_id world0
     = (Throw (Error MSG_FOLDER_OR_WEBHOOK), world0)
  /\ createVerification accept walver0 invalid_date_minimal world0
     = (Throw (RangeError "Invalid time value"), world0).
Proof. split; [discriminate | split; reflexivity]. Qed.

(** C2, amended: when [folder_id] and [webhook] are each unset or the empty
    string, [createVerification] issues no request; unless [expiration] is
    an Invalid Date, which throws first, it throws the presence error, a
    ValidationError, and leaves the world as it was, without a warning.
    When at least one of the two is a non-empty string the presence check
    passes, and the presence error is never the one thrown. *)
Theorem presence_check
    (respond : Request -> JsError + JsValue) (this : Walver)
    (o : VerificationOptions) (w : World) :
  ((folder_id o = None \/ folder_id o = Some "") ->
   (webhook o = None \/ webhook o = Some "") ->
   network (snd (createVerification respond this o w)) = network w
   /\ (expiration_error o = None ->
       createVerification respond this o w
         = (Throw (Error MSG_FOLDER_OR_WEBHOOK), w)
       /\ ValidationError (Error MSG_FOLDER_OR_WEBHOOK)))
  /\
  ((exists s, s <> "" /\ (folder_id o = Some s \/ webhook o = Some s)) ->
   check_folder_or_webhook (folder_id o) (webhook o) w = (Return tt, w)
   /\ forall e,
        fst (createVerification respond this o w) = Throw e ->
        network (snd (createVerification respond this o w)) = network w ->
        e <> Error MSG_FOLDER_OR_WEBHOOK).
Proof.
  split.
  - intros Hf Hw.
    apply truthy_string_false in Hf, Hw.
    assert (violates FolderOrWebhook o = true) as V
        by (simpl; now rewrite Hf, Hw).
    split; [exact (violation_stops respond this o w _ V)|].
    intros D. split; [|now exists FolderOrWebhook].
    rewrite createVerification_run. rewrite D. cbv zeta.
    unfold first_violation, rule_order, warned. cbn [find].
    now rewrite V.
  - intros (s & Hs & H).
    assert (violates FolderOrWebhook o = false) as V.
    { simpl. apply andb_false_iff.
      destruct H as [H|H]; [left | right]; apply negb_false_iff;
        apply truthy_string_nonempty; eauto. }
    split.
    + rewrite check_folder_or_webhook_run. now rewrite V.
    + intros e T N.
      exact (satisfied_not_reported respond this o w FolderOrWebhook e V T N).
Qed.

Lemma presence_check_witness :
  createVerification accept walver0 minimal world0
    = (Throw (Error MSG_FOLDER_OR_WEBHOOK), world0)
  /\ check_folder_or_webhook (folder_id in_folder) (webhook in_folder) world0
     = (Return tt, world0).
Proof.
  split.
  - apply (proj1 (presence_check accept walver0 minimal world0));
      solve [left; reflexivity | reflexivity].
  - apply (proj2 (presence_check accept walver0 in_folder world0)).
    exists "f1". split; [discriminate | left; reflexivity].
Defined.

(** ** Scheme of the webhook *)

(** C3, as stated: the empty string does not start with [https://], yet
    with a folder the call is not rejected: the request goes out, carrying
    the empty webhook.  And with an [http://] webhook but an Invalid Date as
    [expiration], the error is the RangeError of line 137, no
    ValidationError. *)
Lemma empty_webhook_accepted :
  webhook empty_webhook = Some ""
  /\ startsWith "" "https://" = false
  /\ createVerification accept walver0 empty_webhook world0
     = (Return (JObject [("url", JString "https://walver.io/v/v1")]),
        sent (new_request walver0 empty_webhook) world0)
  /\ assoc "webhook" (payload empty_webhook) = Some (JString "")
  /\ createVerification accept walver0 invalid_date_http_webhook world0
     = (Throw (RangeError "Invalid time value"), world0).
Proof. repeat split; reflexivity. Qed.

(** C3, amended: for every options object whose webhook is a non-empty
    string that does not start with [https://], [createVerification] issues
    no request; unless [expiration] is an Invalid Date, which throws first,
    it throws the scheme error, a ValidationError.  A webhook that starts
    with [https://] passes the check, and so does the empty string, which
    the check treats as no webhook; in both cases the scheme error is never
    the one thrown. *)
Theorem webhook_scheme_check
    (respond : Request -> JsError + JsValue) (this : Walver)
    (o : VerificationOptions) (w : World) (url : string) :
  webhook o = Some url ->
  (url <> "" -> startsWith url "https://" = false ->
   network (snd (createVerification respond this o w)) = network w
   /\ (expiration_error o = None ->
       fst (createVerification respond this o w)
         = Throw (Error MSG_WEBHOOK_HTTPS)
       /\ ValidationError (Error MSG_WEBHOOK_HTTPS)))
  /\
  (startsWith url "https://" = true \/ url = "" ->
   check_webhook_https (webhook o) w = (Return tt, w)
   /\ forall e,
        fst (createVerification respond this o w) = Throw e ->
        network (snd (createVerification respond this o w)) = network w ->
        e <> Error MSG_WEBHOOK_HTTPS).
Proof.
  intros Hw. split.
  - intros Hne Hs.
    assert (truthy_string (webhook o) = true) as T
        by (apply truthy_string_nonempty; eauto).
    assert (violates WebhookHttps o = true) as V
        by (simpl; rewrite nonempty_truthy, T, Hw; now rewrite Hs).
    split; [exact (violation_stops respond this o w _ V)|].
    intros D.
    assert (first_violation o = Some WebhookHttps) as F.
    { unfold first_violation, rule_order. cbn [find].
      assert (violates FolderOrWebhook o = false) as ->
          by (simpl; rewrite T; apply andb_false_r).
      now rewrite V. }
    destruct (rejected respond this o w WebhookHttps D F) as [R _].
    split; [exact R | now exists WebhookHttps].
  - intros H.
    assert (violates WebhookHttps o = false) as V.
    { simpl. rewrite Hw. simpl. unfold string_truthy.
      destruct H as [H| ->]; [|reflexivity].
      destruct (negb (url =? "")); [now rewrite H | reflexivity]. }
    split.
    + rewrite check_webhook_https_run. now rewrite V.
    + intros e T N.
      exact (satisfied_not_reported respond this o w WebhookHttps e V T N).
Qed.

Lemma webhook_scheme_check_witness :
  fst (createVerification accept walver0 http_webhook world0)
    = Throw (Error MSG_WEBHOOK_HTTPS)
  /\ check_webhook_https (webhook https_webhook) world0 = (Return tt, world0).
Proof.
  split.
  - apply (proj1 (webhook_scheme_check accept walver0 http_webhook world0
                    "http://example.com" eq_refl));
      solve [discriminate | reflexivity].
  - apply (proj2 (webhook_scheme_check accept walver0 https_webhook world0
                    "https://example.com/hook" eq_refl)).
    left. reflexivity.
Defined.

(** ** Token gate *)

(** C4, as stated: the token gate is on, the address is non-empty and the
    amount is a number other than zero, namely [NaN]; the check does not pass
    but throws the missing-amount error.  And with a zero amount but an
    Invalid Date as [expiration], the error is the RangeError of line 137,
    no ValidationError. *)
Lemma nan_token_amount_rejected :
  token_gate nan_amount = Some true
  /\ token_address nan_amount = Some "0xabc"
  /\ token_amount nan_amount = Some S754_nan
  /\ (forall s, S754_nan <> S754_zero s)
  /\ check_token_gate true (token_address nan_amount) (token_amount nan_amount)
       world0
     = (Throw (Error MSG_TOKEN_AMOUNT), world0)
  /\ createVerification accept walver0 nan_amount world0
     = (Throw (Error MSG_TOKEN_AMOUNT), world0)
  /\ createVerification accept walver0 invalid_date_zero_amount world0
     = (Throw (RangeError "Invalid time value"), world0).
Proof. repeat split; try reflexivity. discriminate. Qed.

(** C4, amended: for every options object with [token_gate] true,
    [createVerification] issues no request when [token_address] is missing
    or empty, or when [token_amount] is missing, zero or [NaN]; unless
    [expiration] is an Invalid Date, which throws first, it throws a
    ValidationError, and once the presence and scheme rules hold that error
    is the missing-address or the missing-amount message.  When the address
    is non-empty and the amount is neither missing, zero nor [NaN], the
    token gate check passes and neither of its two messages is ever
    thrown. *)
Theorem token_gate_check
    (respond : Request -> JsError + JsValue) (this : Walver)
    (o : VerificationOptions) (w : World) :
  token_gate o = Some true ->
  ((token_address o = None \/ token_address o = Some "")
   \/ (token_amount o = None
       \/ (exists s, token_amount o = Some (S754_zero s))
       \/ token_amount o = Some S754_nan) ->
   network (snd (createVerification respond this o w)) = network w
   /\ (expiration_error o = None ->
       exists e,
         fst (createVerification respond this o w) = Throw e
         /\ ValidationError e
         /\ (violates FolderOrWebhook o = false ->
             violates WebhookHttps o = false ->
             e = Error MSG_TOKEN_ADDRESS \/ e = Error MSG_TOKEN_AMOUNT)))
  /\
  ((exists a, token_address o = Some a /\ a <> "") ->
   (exists n, token_amount o = Some n
              /\ (forall s, n <> S754_zero s) /\ n <> S754_nan) ->
   check_token_gate true (token_address o) (token_amount o) w = (Return tt, w)
   /\ forall e,
        fst (createVerification respond this o w) = Throw e ->
        network (snd (createVerification respond this o w)) = network w ->
        e <> Error MSG_TOKEN_ADDRESS /\ e <> Error MSG_TOKEN_AMOUNT).
Proof.
  intros G. split.
  - intros H.
    assert (violates TokenAddress o = true \/ violates TokenAmount o = true)
      as V.
    { simpl. rewrite G. simpl.
      destruct H as [H|H].
      - left. apply negb_true_iff. now apply truthy_string_false.
      - right. apply negb_true_iff. now apply truthy_number_false. }
    split.
    { destruct V as [V|V]; exact (violation_stops respond this o w _ V). }
    intros D.
    assert (exists r, first_violation o = Some r) as [r F]
        by (destruct V as [V|V]; eapply violation_found; exact V).
    destruct (rejected respond this o w r D F) as [R _].
    exists (Error (rule_message r)).
    repeat split; [exact R | now exists r |].
    intros V1 V2. revert F. unfold first_violation, rule_order. cbn [find].
    rewrite V1, V2.
    destruct (violates TokenAddress o);
      [intros [= <-]; now left|].
    destruct V as [V|V]; [discriminate V|]. rewrite V.
    intros [= <-]; now right.
  - intros Ha (n & Hn & Tn).
    apply number_truthy_true in Tn.
    apply truthy_string_nonempty in Ha.
    assert (violates TokenAddress o = false) as V1
        by (simpl; rewrite Ha; apply andb_false_r).
    assert (violates TokenAmount o = false) as V2
        by (simpl; rewrite Hn; simpl; rewrite Tn; apply andb_false_r).
    split.
    + pose proof (check_token_gate_run o w) as R.
      rewrite G, V1, V2 in R. exact R.
    + intros e T N. split.
      * exact (satisfied_not_reported respond this o w TokenAddress e V1 T N).
      * exact (satisfied_not_reported respond this o w TokenAmount e V2 T N).
Qed.

Lemma token_gate_check_witness :
  (exists e,
     fst (createVerification accept walver0 zero_amount world0) = Throw e
     /\ ValidationError e
     /\ (violates FolderOrWebhook zero_amount = false ->
         violates WebhookHttps zero_amount = false ->
         e = Error MSG_TOKEN_ADDRESS \/ e = Error MSG_TOKEN_AMOUNT))
  /\ check_token_gate true (token_address five_tokens)
       (token_amount five_tokens) world0
     = (Return tt, world0).
Proof.
  split.
  - apply (proj1 (token_gate_check accept walver0 zero_amount world0 eq_refl)).
    + right. right. left. exists false. reflexivity.
    + reflexivity.
  - apply (proj2 (token_gate_check accept walver0 five_tokens world0 eq_refl)).
    + exists "0xabc". split; [reflexivity | discriminate].
    + exists (number_of_Z 5). repeat split; discriminate.
Defined.

(** ** Forced channels *)

(** C5, as stated: the email flag is true and [custom_fields] is empty, but
    [expiration] is an Invalid Date: line 137 throws the RangeError of
    [toISOString] before any check, and that is no ValidationError. *)
Lemma invalid_date_precedes_channel_check :
  force_flag email invalid_date_forced_email = Some true
  /\ or_default [] (custom_fields invalid_date_forced_email) = []
  /\ createVerification accept walver0 invalid_date_forced_email world0
     = (Throw (RangeError "Invalid time value"), world0)
  /\ ~ ValidationError (RangeError "Invalid time value").
Proof.
  repeat split; try reflexivity.
  intros [r H]. discriminate H.
Qed.

(** C5, amended: for each of the five channels and every options object
    with that channel's force flag true, [createVerification] issues no
    request when [custom_fields] is empty (or left unset) or holds no element
    whose [type] is the channel's name; unless [expiration] is an Invalid
    Date, which throws first, it throws a ValidationError, the channel's own
    message when no other rule is violated.  When [custom_fields] holds an
    element of that type the channel's check passes and the channel's
    message is never thrown.  Nothing is assumed about the other channels:
    each is checked by itself. *)
Theorem force_channel_check
    (respond : Request -> JsError + JsValue) (this : Walver)
    (c : Channel) (o : VerificationOptions) (w : World) :
  force_flag c o = Some true ->
  let fields := or_default [] (custom_fields o) in
  ((fields = [] \/
    forall field, In field fields -> type field <> channel_name c) ->
   network (snd (createVerification respond this o w)) = network w
   /\ (expiration_error o = None ->
       exists e,
         fst (createVerification respond this o w) = Throw e
         /\ ValidationError e
         /\ ((forall r, r <> Force c -> violates r o = false) ->
             e = Error (MSG_FORCE c))))
  /\
  ((exists field, In field fields /\ type field = channel_name c) ->
   check_force c true fields w = (Return tt, w)
   /\ forall e,
        fst (createVerification respond this o w) = Throw e ->
        network (snd (createVerification respond this o w)) = network w ->
        e <> Error (MSG_FORCE c)).
Proof.
  intros Flag fields. split.
  - intros H.
    assert (has_field c fields = false) as NF.
    { destruct H as [H|H]; [now rewrite H | now apply has_field_none]. }
    assert (violates (Force c) o = true) as V.
    { simpl. rewrite Flag. simpl. fold fields. now rewrite NF. }
    split; [exact (violation_stops respond this o w _ V)|].
    intros D.
    destruct (violation_found o (Force c) V) as [r F].
    destruct (rejected respond this o w r D F) as [R _].
    exists (Error (rule_message r)).
    repeat split; [exact R | now exists r |].
    intros Others.
    rewrite (only_violation_first o (Force c) V Others) in F.
    now injection F as <-.
  - intros H. apply has_field_exists in H.
    assert (violates (Force c) o = false) as V.
    { simpl. fold fields. rewrite H. apply andb_false_r. }
    split.
    + rewrite check_force_run. now rewrite H.
    + intros e T N.
      exact (satisfied_not_reported respond this o w (Force c) e V T N).
Qed.

Lemma force_channel_check_witness :
  (exists e,
     fst (createVerification accept walver0 forced_email_no_field world0)
       = Throw e
     /\ ValidationError e
     /\ ((forall r, r <> Force email ->
                    violates r forced_email_no_field = false) ->
         e = Error (MSG_FORCE email)))
  /\ check_force email true [wallet_field; email_field] world0
     = (Return tt, world0).
Proof.
  split.
  - apply (proj1 (force_channel_check accept walver0 email
                    forced_email_no_field world0 eq_refl)).
    + left. reflexivity.
    + reflexivity.
  - apply (proj2 (force_channel_check accept walver0 email
                    forced_email_with_field world0 eq_refl)).
    exists email_field. split; [right; left; reflexivity | reflexivity].
Defined.

(** ** The ISO-8601 string denotes the date's instant *)

Lemma append_assoc (a b c : string) :
  ((a ++ b) ++ c)%string = (a ++ b ++ c)%string.
Proof. induction a as [|x a IH]; simpl; [reflexivity | now rewrite IH]. Qed.

(** The digit character of [z] is the character of a number below ten. *)
Lemma digit_below_ten (z : Z) :
  exists k : nat,
    (k < 10)%nat /\ (z mod 10)%Z = Z.of_nat k
    /\ ISO.digit z = ascii_of_nat (48 + k).
Proof.
  exists (Z.to_nat (z mod 10)).
  pose proof (Z.mod_pos_bound z 10 eq_refl).
  repeat split; [lia | lia].
Qed.

Lemma digit_value_digit (z : Z) :
  ISO.digit_value (ISO.digit z) = Some (z mod 10)%Z.
Proof.
  destruct (digit_below_ten z) as (k & K & -> & ->).
  do 10 (destruct k as [|k]; [reflexivity|]). lia.
Qed.

Lemma digit_is_no_sign (z : Z) :
  Ascii.eqb (ISO.digit z) "+" = false /\ Ascii.eqb (ISO.digit z) "-" = false.
Proof.
  destruct (digit_below_ten z) as (k & K & _ & ->).
  do 10 (destruct k as [|k]; [split; reflexivity|]). lia.
Qed.

(** Reading back the digits that [digits] wrote. *)
Lemma read_digits_digits (k : nat) :
  forall (m : nat) (z acc : Z) (rest : string),
    ISO.read_digits (k + m) acc (ISO.digits k z ++ rest)
    = ISO.read_digits m (acc * 10 ^ Z.of_nat k + z mod 10 ^ Z.of_nat k)%Z rest.
Proof.
  induction k as [|k IH]; intros m z acc rest.
  - simpl. rewrite Z.mod_1_r. f_equal. lia.
  - cbn [ISO.digits]. rewrite append_assoc. cbn [append].
    replace (S k + m)%nat with (k + S m)%nat by lia.
    rewrite IH. cbn [ISO.read_digits]. rewrite digit_value_digit.
    f_equal.
    rewrite Nat2Z.inj_succ, Z.pow_succ_r by lia.
    rewrite (Z.rem_mul_r z 10 (10 ^ Z.of_nat k)) by lia.
    ring.
Qed.

Lemma read_digits_exact (n : nat) (z : Z) (rest : string) :
  (0 <= z < 10 ^ Z.of_nat n)%Z ->
  ISO.read_digits n 0 (ISO.digits n z ++ rest) = Some (z, rest).
Proof.
  intros H. replace n with (n + 0)%nat at 1 by lia.
  rewrite read_digits_digits. simpl. now rewrite Z.mod_small.
Qed.

Lemma digits_head (k : nat) :
  forall (z : Z) (rest : string),
    exists z' s, (ISO.digits (S k) z ++ rest)%string = String (ISO.digit z') s.
Proof.
  induction k as [|k IH]; intros z rest.
  - exists z, rest. reflexivity.
  - cbn [ISO.digits]. rewrite append_assoc.
    destruct (IH (z / 10)%Z (String (ISO.digit z) "" ++ rest)%string)
      as (z' & s & H).
    exists z', s. exact H.
Qed.

Lemma read_year_plain (y : Z) (rest : string) :
  (0 <= y <= 9999)%Z ->
  ISO.read_year (ISO.year_string y ++ rest) = Some (y, rest).
Proof.
  intros H. unfold ISO.year_string.
  replace ((0 <=? y)%Z && (y <=? 9999)%Z) with true
    by (symmetry; apply andb_true_iff; split; apply Z.leb_le; lia).
  rewrite <- (read_digits_exact 4 y rest) by (simpl; lia).
  destruct (digits_head 3 y rest) as (z' & s & E). rewrite E.
  unfold ISO.read_year.
  destruct (digit_is_no_sign z') as [-> ->]. reflexivity.
Qed.

Lemma read_year_signed (y : Z) (rest : string) :
  (- 1000000 < y < 0 \/ 9999 < y < 1000000)%Z ->
  ISO.read_year (ISO.year_string y ++ rest) = Some (y, rest).
Proof.
  intros H. unfold ISO.year_string.
  replace ((0 <=? y)%Z && (y <=? 9999)%Z) with false.
  2:{ symmetry. apply andb_false_iff.
      destruct H; [left; apply Z.leb_gt | right; apply Z.leb_gt]; lia. }
  rewrite append_assoc. destruct H as [H|H].
  - replace (y <? 0)%Z with true by (symmetry; apply Z.ltb_lt; lia).
    cbn [append]. unfold ISO.read_year. cbn [Ascii.eqb Bool.eqb].
    rewrite read_digits_exact by (simpl; lia).
    f_equal. f_equal. lia.
  - replace (y <? 0)%Z with false by (symmetry; apply Z.ltb_ge; lia).
    cbn [append]. unfold ISO.read_year. cbn [Ascii.eqb Bool.eqb].
    rewrite read_digits_exact by (simpl; lia).
    f_equal. f_equal. lia.
Qed.

Lemma skip_cons (c : ascii) (rest : string) :
  ISO.skip c (String c "" ++ rest) = Some rest.
Proof. simpl. now rewrite Ascii.eqb_refl. Qed.

Lemma all_from_spec (p : Z -> bool) (n : nat) :
  forall i, ISO.all_from p n i = true ->
            forall j, (i <= j < i + Z.of_nat n)%Z -> p j = true.
Proof.
  induction n as [|n IH]; intros i H j Hj; [lia|].
  cbn [ISO.all_from] in H. destruct (p i) eqn:P; [|discriminate H].
  destruct (Z.eq_dec j i) as [->|Hne]; [exact P|].
  apply (IH (i + 1)%Z H). lia.
Qed.

(** Every day of the 400-year era, one by one. *)
Lemma doe_table : ISO.all_from ISO.doe_ok 146097 0 = true.
Proof. vm_compute. reflexivity. Qed.

Lemma doe_ok_all (doe : Z) : (0 <= doe < 146097)%Z -> ISO.doe_ok doe = true.
Proof.
  intros H.
  assert (Z.of_nat 146097 = 146097%Z) as E by (vm_compute; reflexivity).
  apply (all_from_spec ISO.doe_ok 146097 0 doe_table).
  rewrite E. lia.
Qed.

(** [civil] and [days_from_civil] are inverse to each other. *)
Lemma civil_spec (day : Z) :
  let '(y, m, d) := ISO.civil day in
  (1 <= m <= 12)%Z /\ (1 <= d <= 31)%Z
  /\ ISO.days_from_civil y m d = day
  /\ ((day + 719468) / 146097 * 400 <= y
      <= (day + 719468) / 146097 * 400 + 400)%Z.
Proof.
  unfold ISO.civil. cbv zeta.
  set (z := (day + 719468)%Z).
  set (era := (z / 146097)%Z).
  set (doe := (z - era * 146097)%Z).
  assert (0 <= doe < 146097)%Z as Hdoe.
  { pose proof (Z.div_mod z 146097 ltac:(lia)).
    pose proof (Z.mod_pos_bound z 146097 ltac:(lia)).
    subst doe era. lia. }
  pose proof (doe_ok_all doe Hdoe) as K.
  unfold ISO.doe_ok in K. cbv zeta in K.
  set (yoe := ((doe - doe / 1460 + doe / 36524 - doe / 146096) / 365)%Z) in *.
  set (doy := (doe - (365 * yoe + yoe / 4 - yoe / 100))%Z) in *.
  set (mp := ((5 * doy + 2) / 153)%Z) in *.
  set (d := (doy - (153 * mp + 2) / 5 + 1)%Z) in *.
  set (m := (if (mp <? 10)%Z then (mp + 3)%Z else (mp - 9)%Z)) in *.
  repeat (apply andb_true_iff in K as [K ?]).
  repeat match goal with
         | H : (_ <=? _)%Z = true |- _ => apply Z.leb_le in H
         | H : (_ =? _)%Z = true |- _ => apply Z.eqb_eq in H
         end.
  split; [lia|]. split; [lia|]. split; [|destruct (m <=? 2)%Z; lia].
  unfold ISO.days_from_civil. cbv zeta.
  replace (if (m <=? 2)%Z
           then (yoe + era * 400 + (if (m <=? 2)%Z then 1 else 0) - 1)%Z
           else (yoe + era * 400 + (if (m <=? 2)%Z then 1 else 0))%Z)
    with (yoe + era * 400)%Z by (destruct (m <=? 2)%Z; lia).
  assert ((yoe + era * 400) / 400 = era)%Z as E.
  { rewrite Z.div_add by lia. rewrite Z.div_small by lia. lia. }
  rewrite E.
  replace (yoe + era * 400 - era * 400)%Z with yoe by lia.
  subst doe z. lia.
Qed.

Lemma time_of_day (ms : Z) :
  (0 <= ms < 86400000)%Z ->
  (0 <= ms / 3600000 < 100 /\ 0 <= ms / 60000 mod 60 < 100
   /\ 0 <= ms / 1000 mod 60 < 100 /\ 0 <= ms mod 1000 < 1000
   /\ ms / 3600000 * 3600000 + ms / 60000 mod 60 * 60000
      + ms / 1000 mod 60 * 1000 + ms mod 1000 = ms)%Z.
Proof. intros H. Z.div_mod_to_equations. lia. Qed.


Lemma civil_year_range (t : Z) :
  (Z.abs t <= maxTime)%Z ->
  (- 680 <= (t / ISO.msPerDay + 719468) / 146097 <= 689)%Z.
Proof.
  unfold maxTime, ISO.msPerDay. intros H. Z.div_mod_to_equations. lia.
Qed.

(** Read as ISO-8601, the string of a time value in a date's range denotes
    that time value. *)
Lemma instant_format (t : Z) :
  (Z.abs t <= maxTime)%Z -> ISO.instant (ISO.format t) = Some t.
Proof.
  intros R. unfold ISO.format. cbv zeta.
  pose proof (civil_spec (t / ISO.msPerDay)) as C.
  pose proof (civil_year_range t R) as Y.
  destruct (ISO.civil (t / ISO.msPerDay)) as [[y m] d].
  destruct C as (Hm & Hd & D & Hy).
  assert (0 <= t mod ISO.msPerDay < 86400000)%Z as Hms
      by (apply Z.mod_pos_bound; reflexivity).
  destruct (time_of_day (t mod ISO.msPerDay) Hms) as (H1 & H2 & H3 & H4 & S).
  unfold ISO.instant.
  assert (ISO.read_year
            (ISO.year_string y ++ "-" ++ ISO.digits 2 m ++ "-"
               ++ ISO.digits 2 d ++ "T"
               ++ ISO.digits 2 (t mod ISO.msPerDay / 3600000) ++ ":"
               ++ ISO.digits 2 (t mod ISO.msPerDay / 60000 mod 60) ++ ":"
               ++ ISO.digits 2 (t mod ISO.msPerDay / 1000 mod 60) ++ "."
               ++ ISO.digits 3 (t mod ISO.msPerDay mod 1000) ++ "Z")
          = Some (y, ("-" ++ ISO.digits 2 m ++ "-"
               ++ ISO.digits 2 d ++ "T"
               ++ ISO.digits 2 (t mod ISO.msPerDay / 3600000) ++ ":"
               ++ ISO.digits 2 (t mod ISO.msPerDay / 60000 mod 60) ++ ":"
               ++ ISO.digits 2 (t mod ISO.msPerDay / 1000 mod 60) ++ "."
               ++ ISO.digits 3 (t mod ISO.msPerDay mod 1000) ++ "Z")%string))
    as ->.
  { destruct (Z_le_dec 0 y) as [P|N];
      [destruct (Z_le_dec y 9999) as [P'|N']|].
    - apply read_year_plain. lia.
    - apply read_year_signed. lia.
    - apply read_year_signed. lia. }
  rewrite skip_cons.
  rewrite read_digits_exact by (simpl; lia). rewrite skip_cons.
  rewrite read_digits_exact by (simpl; lia). rewrite skip_cons.
  rewrite read_digits_exact by (simpl; lia). rewrite skip_cons.
  rewrite read_digits_exact by (simpl; lia). rewrite skip_cons.
  rewrite read_digits_exact by (simpl; lia). rewrite skip_cons.
  rewrite read_digits_exact by (simpl; lia).
  rewrite String.eqb_refl. f_equal. rewrite D.
  pose proof (Z.div_mod t ISO.msPerDay ltac:(discriminate)).
  lia.
Qed.

Lemma finite_time_range (d : JsDate) (t : Z) :
  finite_time d = Some t -> (Z.abs t <= maxTime)%Z.
Proof.
  unfold finite_time, TimeClip. destruct (time_value d) as [t'|]; [|discriminate].
  destruct (Z.leb_spec (Z.abs t') maxTime) as [H|H]; [|discriminate].
  now intros [= <-].
Qed.

(** ** Failure of the POST *)

(** C6: when the POST to [/new] has been issued and fails with a reply of
    status 409, [createVerification] throws the DuplicateIdError with its
    fixed message; for every other failure of that request (another status,
    or no reply at all) it throws the very error the transport gave. *)
Theorem conflict_becomes_duplicate_id
    (respond : Request -> JsError + JsValue) (this : Walver)
    (o : VerificationOptions) (w : World) (req : Request) (error : JsError) :
  network (snd (createVerification respond this o w)) = network w ++ [req] ->
  respond req = inl error ->
  let out := createVerification respond this o w in
  req_method req = POST
  /\ req_path req = "/new"
  /\ ((exists r, response_of error = Some r /\ status r = 409%Z) ->
      fst out
        = Throw (Error "ID for the verification already exists. Choose another ID.")
      /\ DuplicateIdError
           (Error "ID for the verification already exists. Choose another ID."))
  /\ (~ (exists r, response_of error = Some r /\ status r = 409%Z) ->
      fst out = Throw error).
Proof.
  intros N E. cbv zeta.
  pose proof (transmitted_formatted respond this o w req N) as D.
  apply transmitted_inv in N as [F ->].
  rewrite createVerification_run. rewrite D. cbv zeta. rewrite F.
  unfold outcome. rewrite E. simpl.
  repeat split.
  - destruct H as (r & R & S). unfold is_conflict. rewrite R, S. reflexivity.
  - intros H. unfold is_conflict.
    destruct (response_of error) as [r|] eqn:R; [|reflexivity].
    destruct (Z.eqb_spec (status r) 409) as [S|S]; [|reflexivity].
    exfalso. apply H. now exists r.
Qed.

Lemma conflict_becomes_duplicate_id_witness :
  fst (createVerification (reject conflict) walver0 in_folder world0)
    = Throw (Error MSG_DUPLICATE)
  /\ fst (createVerification (reject timed_out) walver0 in_folder world0)
     = Throw timed_out.
Proof.
  split.
  - apply (conflict_becomes_duplicate_id (reject conflict) walver0 in_folder
             world0 (new_request walver0 in_folder) conflict eq_refl eq_refl).
    eexists. split; reflexivity.
  - apply (conflict_becomes_duplicate_id (reject timed_out) walver0 in_folder
             world0 (new_request walver0 in_folder) timed_out eq_refl eq_refl).
    intros (r & R & _). discriminate R.
Defined.

(** ** The transmitted payload *)

Lemma assemble_force_key (c : Channel) (o : VerificationOptions) :
  assoc (force_key c) (assemble o)
  = Some (JBool (or_default false (force_flag c o))).
Proof. now destruct c. Qed.

(** C7, as stated: the caller leaves [one_time] unset and the transmitted
    payload has the key [one_time] all the same, with the default. *)
Lemma unset_flag_is_transmitted :
  one_time in_folder = None
  /\ network (snd (createVerification accept walver0 in_folder world0))
     = [new_request walver0 in_folder]
  /\ In "one_time" (keys (req_data (new_request walver0 in_folder)))
  /\ assoc "one_time" (req_data (new_request walver0 in_folder))
     = Some (JBool false).
Proof.
  split; [reflexivity|].
  split; [vm_compute; reflexivity|].
  split; [vm_compute; tauto | vm_compute; reflexivity].
Qed.

(** C7, amended: for every options object and every request
    [createVerification] issues, each field that has no default
    ([internal_id], [webhook], [expiration], [secret], [redirect_url],
    [folder_id], [token_address], [token_amount]) and that the caller left
    unset is absent from the payload: the payload has no such key, and no key
    of the payload holds [undefined]; each field that has a default
    ([one_time], [custom_fields], [token_gate], [is_nft], the five force
    flags) and that the caller left unset is transmitted with that
    default. *)
Theorem unset_fields_are_absent
    (respond : Request -> JsError + JsValue) (this : Walver)
    (o : VerificationOptions) (w : World) (req : Request) :
  network (snd (createVerification respond this o w)) = network w ++ [req] ->
  (forall key unset,
      In (key, unset) undefaulted_fields -> unset o = true ->
      ~ In key (keys (req_data req)))
  /\ (forall key v, In (key, v) (req_data req) -> v <> JUndefined)
  /\ (one_time o = None ->
      assoc "one_time" (req_data req) = Some (JBool false))
  /\ (custom_fields o = None ->
      assoc "custom_fields" (req_data req) = Some (JArray []))
  /\ (token_gate o = None ->
      assoc "token_gate" (req_data req) = Some (JBool false))
  /\ (is_nft o = None ->
      assoc "is_nft" (req_data req) = Some (JBool false))
  /\ (forall c, force_flag c o = None ->
      assoc (force_key c) (req_data req) = Some (JBool false)).
Proof.
  intros N. apply transmitted_inv in N as [_ ->].
  rewrite !(new_request_data this o). split; [|split].
  - intros key unset Hin U. apply assoc_keys. rewrite payload_lookup.
    simpl in Hin.
    repeat (destruct Hin as [E|Hin];
            [injection E as <- <-; cbv beta in U;
             match type of U with
             | match ?x with _ => _ end = true => destruct x eqn:Ex
             end;
             [discriminate U
             | unfold assemble, formatted_expiration; rewrite Ex;
               reflexivity]|]).
    contradiction.
  - intros key v Hin ->. rewrite payload_filter in Hin.
    apply filter_In in Hin as [_ Hin]. discriminate Hin.
  - repeat split.
    + intros E. rewrite payload_lookup. unfold assemble. now rewrite E.
    + intros E. rewrite payload_lookup. unfold assemble. now rewrite E.
    + intros E. rewrite payload_lookup. unfold assemble. now rewrite E.
    + intros E. rewrite payload_lookup. unfold assemble. now rewrite E.
    + intros c E. rewrite payload_lookup, assemble_force_key. now rewrite E.
Qed.

Lemma unset_fields_are_absent_witness :
  ~ In "webhook" (keys (req_data (new_request walver0 in_folder)))
  /\ assoc "is_nft" (req_data (new_request walver0 in_folder))
     = Some (JBool false).
Proof.
  pose proof (unset_fields_are_absent accept walver0 in_folder world0
                (new_request walver0 in_folder) eq_refl)
    as (A & _ & _ & _ & _ & B & _).
  split.
  - apply (A "webhook" (fun o => match webhook o with
                                 | Some _ => false
                                 | None => true
                                 end)).
    + right. left. reflexivity.
    + reflexivity.
  - apply B. reflexivity.
Defined.

(** C8, as stated: [expiration] is given as a date, an Invalid Date; it is
    converted to no string and nothing is transmitted: line 137 throws the
    RangeError of [toISOString]. *)
Lemma invalid_date_is_not_converted :
  expiration invalid_date = Some (ExpDate InvalidDate)
  /\ createVerification accept walver0 invalid_date world0
     = (Throw (RangeError "Invalid time value"), world0)
  /\ network (snd (createVerification accept walver0 invalid_date world0))
     = [].
Proof. repeat split; reflexivity. Qed.

(** C8, amended: when [expiration] is a date without a finite time value
    (an Invalid Date), [createVerification] throws the RangeError of
    [toISOString] and leaves the world as it was.  In every request
    [createVerification] issues, the payload's [expiration] is: for a date,
    which then has a finite time value, the string [toISOString] gives for
    it, and that string read as ISO-8601 denotes the date's time value; for
    a string, that string unchanged; absent when the caller gave none. *)
Theorem expiration_normalised
    (respond : Request -> JsError + JsValue) (this : Walver)
    (o : VerificationOptions) (w : World) :
  (forall d, expiration o = Some (ExpDate d) -> finite_time d = None ->
     createVerification respond this o w
     = (Throw (RangeError "Invalid time value"), w))
  /\
  (forall req,
     network (snd (createVerification respond this o w)) = network w ++ [req] ->
     match expiration o with
     | Some (ExpDate d) =>
         exists t iso,
           finite_time d = Some t
           /\ toISOString d = inr iso
           /\ assoc "expiration" (req_data req) = Some (JString iso)
           /\ ISO.instant iso = Some t
     | Some (ExpString s) =>
         assoc "expiration" (req_data req) = Some (JString s)
     | None => assoc "expiration" (req_data req) = None
     end).
Proof.
  split.
  - intros d E T. apply refused.
    unfold expiration_error, toISOString. now rewrite E, T.
  - intros req N.
    pose proof (transmitted_formatted respond this o w req N) as D.
    apply transmitted_inv in N as [_ ->].
    rewrite !(new_request_data this o). rewrite !payload_lookup.
    change (assoc "expiration" (assemble o))
      with (Some (of_expiration (formatted_expiration o))).
    unfold formatted_expiration, expiration_error, toISOString in *.
    destruct (expiration o) as [[s|d]|]; try reflexivity.
    destruct (finite_time d) as [t|] eqn:T; [|discriminate D].
    exists t, (ISO.format t). repeat split.
    apply instant_format. now apply (finite_time_range d).
Qed.

Lemma expiration_normalised_witness :
  exists t iso,
    finite_time (new_Date 1709210096789) = Some t
    /\ toISOString (new_Date 1709210096789) = inr iso
    /\ assoc "expiration" (req_data (new_request walver0 dated))
       = Some (JString iso)
    /\ ISO.instant iso = Some t.
Proof.
  exact (proj2 (expiration_normalised accept walver0 dated world0)
           (new_request walver0 dated) eq_refl).
Defined.

(** C10: in every request [createVerification] issues, the payload has the
    keys [id], [service_name], [chain], [one_time], [custom_fields],
    [token_gate], [is_nft] and the five force flags; a flag the caller left
    unset is transmitted as [false] and unset [custom_fields] as the empty
    array. *)
Theorem defaults_are_transmitted
    (respond : Request -> JsError + JsValue) (this : Walver)
    (o : VerificationOptions) (w : World) (req : Request) :
  network (snd (createVerification respond this o w)) = network w ++ [req] ->
  let field key := assoc key (req_data req) in
  field "id" = Some (JString (id o))
  /\ field "service_name" = Some (JString (service_name o))
  /\ field "chain" = Some (JString (chain o))
  /\ field "one_time" = Some (JBool (or_default false (one_time o)))
  /\ field "custom_fields"
     = Some (JArray (map CustomField_value (or_default [] (custom_fields o))))
  /\ field "token_gate" = Some (JBool (or_default false (token_gate o)))
  /\ field "is_nft" = Some (JBool (or_default false (is_nft o)))
  /\ forall c : Channel,
       field ("force_" ++ channel_name c ++ "_verification")%string
       = Some (JBool (or_default false (force_flag c o))).
Proof.
  intros N. apply transmitted_inv in N as [_ ->]. cbv zeta.
  rewrite !(new_request_data this o).
  repeat split; try (rewrite payload_lookup; reflexivity).
  intros c. rewrite payload_lookup. now destruct c.
Qed.

Lemma defaults_are_transmitted_witness :
  assoc "one_time" (req_data (new_request walver0 in_folder))
    = Some (JBool false)
  /\ assoc "custom_fields" (req_data (new_request walver0 in_folder))
     = Some (JArray [])
  /\ assoc "force_discord_verification"
       (req_data (new_request walver0 in_folder))
     = Some (JBool false).
Proof.
  pose proof (defaults_are_transmitted accept walver0 in_folder world0
                (new_request walver0 in_folder) eq_refl) as H.
  cbv zeta in H.
  destruct H as (_ & _ & _ & H1 & H2 & _ & _ & H3).
  split; [exact H1 | split; [exact H2 | exact (H3 discord)]].
Defined.

(** ** Construction of the client *)

(** C9, as stated: an API key argument is supplied, as the empty string,
    with no environment fallback, and construction fails. *)
Lemma empty_api_key_rejected :
  constructor (Some "") None None world0 = (Throw (Error MSG_API_KEY), world0).
Proof. reflexivity. Qed.

(** C9, amended: when the API key argument is missing or empty and the
    environment variable [WALVER_API_KEY] is missing or empty, construction
    throws the ConfigurationError and leaves the world as it was, so no
    request is made.  When a non-empty key comes as the argument, or, the
    argument being missing or empty, from the environment, construction
    succeeds with that key and leaves the world as it was. *)
Theorem constructor_api_key
    (key_arg url_arg : option string) (timeout_arg : option number)
    (w : World) :
  let env := assoc "WALVER_API_KEY" (process_env w) in
  ((key_arg = None \/ key_arg = Some "") ->
   (env = None \/ env = Some "") ->
   constructor key_arg url_arg timeout_arg w = (Throw (Error MSG_API_KEY), w)
   /\ ConfigurationError (Error MSG_API_KEY))
  /\
  (forall key, key <> "" ->
     key_arg = Some key
     \/ ((key_arg = None \/ key_arg = Some "") /\ env = Some key) ->
     exists this,
       constructor key_arg url_arg timeout_arg w = (Return this, w)
       /\ apiKey this = key).
Proof.
  cbv zeta. split.
  - intros Ha He. apply truthy_string_false in Ha, He.
    split; [|reflexivity].
    unfold constructor, bind, getenv.
    rewrite !nonempty_truthy, Ha. simpl.
    rewrite !nonempty_truthy, He. reflexivity.
  - intros key Hk [Ha|[Ha He]].
    + subst key_arg. unfold constructor, bind. simpl.
      apply String.eqb_neq in Hk. unfold string_truthy. rewrite Hk. simpl.
      eexists. split; reflexivity.
    + apply truthy_string_false in Ha.
      unfold constructor, bind, getenv.
      rewrite !nonempty_truthy, Ha. simpl. rewrite He. simpl.
      apply String.eqb_neq in Hk. unfold string_truthy. rewrite Hk. simpl.
      eexists. split; reflexivity.
Qed.

Lemma constructor_api_key_witness :
  constructor None None None world0 = (Throw (Error MSG_API_KEY), world0)
  /\ (exists this,
        constructor None None None world_with_key = (Return this, world_with_key)
        /\ apiKey this = "env-key").
Proof.
  split.
  - apply (proj1 (constructor_api_key None None None world0));
      left; reflexivity.
  - apply (proj2 (constructor_api_key None None None world_with_key) "env-key").
    + discriminate.
    + right. split; [left|]; reflexivity.
Defined.

(** ** Strings: prefixes and the trailing slash *)

Lemma length_append (s t : string) :
  String.length (s ++ t) = (String.length s + String.length t)%nat.
Proof. induction s as [|a s IH]; simpl; [reflexivity | now rewrite IH]. Qed.

Lemma startsWith_spec (s pre : string) :
  startsWith s pre = true <-> exists rest, s = (pre ++ rest)%string.
Proof.
  unfold startsWith. revert s.
  induction pre as [|a pre IH]; intros s.
  - split; [intros _; now exists s | now destruct s].
  - destruct s as [|b s]; simpl.
    + split; [discriminate | intros [rest H]; discriminate H].
    + destruct (ascii_dec a b) as [->|Hne].
      * rewrite IH. split; intros [rest H]; exists rest.
        -- now rewrite H.
        -- now injection H.
      * split; [discriminate|].
        intros [rest H]. injection H as H _. now destruct Hne.
Qed.

Lemma last_of_append_slash (p : string) :
  substring (String.length p) 1 (p ++ "/") = "/".
Proof. induction p as [|a p IH]; simpl; [reflexivity | exact IH]. Qed.

Lemma front_of_append_slash (p : string) :
  substring 0 (String.length p) (p ++ "/") = p.
Proof. induction p as [|a p IH]; simpl; [reflexivity | now rewrite IH]. Qed.

Lemma endsWith_append_slash (p : string) : endsWith (p ++ "/") "/" = true.
Proof.
  unfold endsWith. rewrite length_append. simpl String.length.
  replace (String.length p + 1 - 1)%nat with (String.length p) by lia.
  rewrite last_of_append_slash.
  apply andb_true_iff. split; [apply Nat.leb_le; lia | reflexivity].
Qed.

Lemma slice_append_slash (p : string) : slice_0_m1 (p ++ "/") = p.
Proof.
  unfold slice_0_m1. rewrite length_append. simpl String.length.
  replace (String.length p + 1 - 1)%nat with (String.length p) by lia.
  apply front_of_append_slash.
Qed.

(** A non-empty string is its front followed by its last character. *)
Lemma front_and_last_cons (s : string) :
  forall a : ascii,
    String a s
    = (substring 0 (String.length s) (String a s)
       ++ substring (String.length s) 1 (String a s))%string.
Proof.
  induction s as [|b s IH]; intros a; [reflexivity|].
  change (String.length (String b s)) with (S (String.length s)).
  change (substring 0 (S (String.length s)) (String a (String b s)))
    with (String a (substring 0 (String.length s) (String b s))).
  change (substring (S (String.length s)) 1 (String a (String b s)))
    with (substring (String.length s) 1 (String b s)).
  simpl append. f_equal. apply IH.
Qed.

Lemma front_and_last (s : string) :
  (1 <= String.length s)%nat ->
  s = (substring 0 (String.length s - 1) s
       ++ substring (String.length s - 1) 1 s)%string.
Proof.
  destruct s as [|a s]; simpl String.length; intros H; [lia|].
  replace (S (String.length s) - 1)%nat with (String.length s) by lia.
  apply front_and_last_cons.
Qed.

Lemma endsWith_slash_inv (s : string) :
  endsWith s "/" = true -> s = (slice_0_m1 s ++ "/")%string.
Proof.
  unfold endsWith, slice_0_m1. simpl String.length.
  intros H. apply andb_true_iff in H as [L E].
  apply Nat.leb_le in L. apply String.eqb_eq in E.
  rewrite <- E. now apply front_and_last.
Qed.

Lemma append_slash_injective (p q : string) :
  (p ++ "/")%string = (q ++ "/")%string -> p = q.
Proof.
  intros H. rewrite <- (slice_append_slash p), <- (slice_append_slash q).
  now rewrite H.
Qed.

(** ** Construction of the client, in full *)

(** [baseUrl.endsWith('/') ? baseUrl.slice(0, -1) : baseUrl] *)
Lemma constructor_run (key_arg url_arg : option string)
    (timeout_arg : option number) (w : World) :
  constructor key_arg url_arg timeout_arg w =
  let url := or_default "https://walver.io/" url_arg in
  let base := if endsWith url "/" then slice_0_m1 url else url in
  let build key :=
    (Return {| apiKey := key;
               baseUrl := base;
               client := axios_create base
                           (or_default (number_of_Z 10000) timeout_arg) key |},
     w) in
  match nonempty key_arg with
  | Some key => build key
  | None =>
      match nonempty (assoc "WALVER_API_KEY" (process_env w)) with
      | Some key => build key
      | None => (Throw (Error MSG_API_KEY), w)
      end
  end.
Proof.
  unfold constructor, bind, getenv, ret, throw. cbv zeta.
  destruct (nonempty key_arg); [reflexivity|].
  now destruct (nonempty (assoc "WALVER_API_KEY" (process_env w))).
Qed.

Lemma nonempty_inv (v : option string) (s : string) :
  nonempty v = Some s -> v = Some s /\ s <> "".
Proof.
  destruct v as [t|]; simpl; [|discriminate].
  unfold string_truthy. destruct (String.eqb_spec t "") as [->|Hne]; simpl.
  - discriminate.
  - intros [= <-]. now split.
Qed.

Lemma constructor_success (key_arg url_arg : option string)
    (timeout_arg : option number) (w w' : World) (this : Walver) :
  constructor key_arg url_arg timeout_arg w = (Return this, w') ->
  let url := or_default "https://walver.io/" url_arg in
  let base := if endsWith url "/" then slice_0_m1 url else url in
  w' = w
  /\ this = {| apiKey := apiKey this;
               baseUrl := base;
               client := axios_create base
                           (or_default (number_of_Z 10000) timeout_arg)
                           (apiKey this) |}
  /\ (nonempty key_arg = Some (apiKey this)
      \/ (nonempty key_arg = None
          /\ nonempty (assoc "WALVER_API_KEY" (process_env w))
             = Some (apiKey this))).
Proof.
  rewrite constructor_run. cbv zeta.
  destruct (nonempty key_arg) as [key|] eqn:K.
  - intros [= <- <-]. simpl. auto.
  - destruct (nonempty (assoc "WALVER_API_KEY" (process_env w)))
      as [key|] eqn:E; [|discriminate].
    intros [= <- <-]. simpl. auto.
Qed.

(** X1: the constructor removes exactly one trailing slash from the base
    URL: given [p/] it stores [p], even when [p] itself ends with a slash,
    and a base URL that does not end with a slash is stored as it is. *)
Theorem constructor_strips_one_slash
    (key_arg : option string) (url : string) (timeout_arg : option number)
    (w w' : World) (this : Walver) :
  constructor key_arg (Some url) timeout_arg w = (Return this, w') ->
  (forall p, url = (p ++ "/")%string -> baseUrl this = p)
  /\ ((forall p, url <> (p ++ "/")%string) -> baseUrl this = url).
Proof.
  intros H. apply constructor_success in H as (_ & -> & _).
  cbv zeta. simpl or_default. simpl baseUrl. split.
  - intros p ->. now rewrite endsWith_append_slash, slice_append_slash.
  - intros N. destruct (endsWith url "/") eqn:E; [|reflexivity].
    apply endsWith_slash_inv in E. now apply N in E.
Qed.

Lemma constructor_strips_one_slash_witness :
  constructor (Some "key") (Some "https://api.example.com//") None world0
    = (Return trailing_client, world0)
  /\ baseUrl trailing_client = "https://api.example.com/".
Proof.
  split; [reflexivity|].
  apply (proj1 (constructor_strips_one_slash (Some "key")
                  "https://api.example.com//" None world0 world0
                  trailing_client eq_refl)).
  reflexivity.
Defined.

(** X2: a client that was constructed holds a non-empty API key, the
    argument when that is non-empty and the environment's value otherwise;
    its transport is configured with the stored base URL, the given timeout
    or 10000, and the single header [X-API-Key] carrying that key; and
    construction leaves the world as it was. *)
Theorem constructed_client_invariant
    (key_arg url_arg : option string) (timeout_arg : option number)
    (w w' : World) (this : Walver) :
  constructor key_arg url_arg timeout_arg w = (Return this, w') ->
  w' = w
  /\ apiKey this <> ""
  /\ (forall key, key_arg = Some key -> key <> "" -> apiKey this = key)
  /\ (key_arg = None \/ key_arg = Some "" ->
      assoc "WALVER_API_KEY" (process_env w) = Some (apiKey this))
  /\ client this
     = {| baseURL := baseUrl this;
          timeout := or_default (number_of_Z 10000) timeout_arg;
          headers := [("X-API-Key", apiKey this)] |}.
Proof.
  intros H. apply constructor_success in H as (-> & E & K).
  cbv zeta in E. split; [reflexivity|].
  split; [|split; [|split]].
  - destruct K as [K|[_ K]]; now apply nonempty_inv in K.
  - intros key -> Hk. destruct K as [K|[K _]].
    + apply nonempty_inv in K as [K _]. now injection K.
    + simpl in K. apply String.eqb_neq in Hk.
      unfold string_truthy in K. now rewrite Hk in K.
  - intros Hk. destruct K as [K|[_ K]].
    + apply nonempty_inv in K as [K Hne].
      destruct Hk as [Hk|Hk]; rewrite Hk in K; [discriminate K|].
      injection K as K. now destruct Hne.
    + now apply nonempty_inv in K.
  - destruct this as [key base transport]. simpl in E |- *.
    now injection E as -> ->.
Qed.

Lemma constructed_client_invariant_witness :
  constructor None None None world_with_key = (Return env_client, world_with_key)
  /\ apiKey env_client <> ""
  /\ headers (client env_client) = [("X-API-Key", "env-key")].
Proof.
  split; [reflexivity|].
  pose proof (constructed_client_invariant None None None world_with_key
                world_with_key env_client eq_refl) as (_ & H & _ & _ & C).
  split; [exact H | now rewrite C].
Defined.

(** ** The relaying methods *)

Lemma invoke_relay (respond : Request -> JsError + JsValue) (this : Walver)
    (call : Call) (w : World) :
  relays call = true ->
  invoke respond this call w
  = (relayed respond (request_of this call), sent (request_of this call) w).
Proof.
  destruct call as [name description [fields|] | | folderId | folderId
                   | name description | | apiKeyId | options];
    try discriminate; intros _;
    unfold invoke, createFolder, getFolders, getFolder, getFolderVerifications,
      createApiKey, getApiKeys, deleteApiKey, _post, _get, _delete, send,
      relayed, request_of; simpl;
    match goal with
    | |- context [respond ?r] => now destruct (respond r)
    end.
Qed.

Lemma request_of_verification (this : Walver) (o : VerificationOptions) :
  request_of this (CreateVerification o) = new_request this o.
Proof. unfold request_of, new_request. cbn [endpoint body fst snd]. reflexivity. Qed.

(** Whatever the method, the only request it can put on the network is the
    one to its endpoint. *)
Lemma invoke_request (respond : Request -> JsError + JsValue) (this : Walver)
    (call : Call) (w : World) (req : Request) :
  network (snd (invoke respond this call w)) = network w ++ [req] ->
  req = request_of this call.
Proof.
  destruct (relays call) eqn:R.
  - rewrite invoke_relay by exact R. simpl. intros E.
    apply app_inv_head in E. congruence.
  - destruct call; try discriminate R. simpl invoke. intros E.
    apply transmitted_inv in E as [_ ->].
    symmetry. apply request_of_verification.
Qed.

(** X3: each of the seven methods other than [createVerification] checks
    nothing and translates nothing: whatever its arguments it issues exactly
    one request, to its own endpoint with this client's configuration, logs
    nothing, and hands back the reply's body or, on failure, the very error
    of the transport, a conflict (status 409) included. *)
Theorem relaying_methods
    (respond : Request -> JsError + JsValue) (this : Walver) (call : Call)
    (w : World) :
  relays call = true ->
  let out := invoke respond this call w in
  let req := request_of this call in
  network (snd out) = network w ++ [req]
  /\ console (snd out) = console w
  /\ req_client req = client this
  /\ (req_method req, req_path req) = endpoint call
  /\ (forall reply, respond req = inr reply -> fst out = Return reply)
  /\ (forall error, respond req = inl error -> fst out = Throw error).
Proof.
  intros R. cbv zeta. rewrite invoke_relay by exact R. simpl.
  repeat split.
  - now destruct (endpoint call).
  - intros reply E. unfold relayed. now rewrite E.
  - intros error E. unfold relayed. now rewrite E.
Qed.

Lemma relaying_methods_witness :
  fst (invoke (reject conflict) walver0 (CreateFolder "Mine" None None) world0)
    = Throw conflict
  /\ network
       (snd (invoke (reject conflict) walver0 (CreateFolder "Mine" None None)
               world0))
     = [request_of walver0 (CreateFolder "Mine" None None)].
Proof.
  pose proof (relaying_methods (reject conflict) walver0
                (CreateFolder "Mine" None None) world0 eq_refl) as H.
  cbv zeta in H. destruct H as (N & _ & _ & _ & _ & E).
  split; [exact (E conflict eq_refl) | exact N].
Defined.

(** X4: no method of the class ever changes [process.env]; each issues at
    most one request, and if one, the request to its own endpoint with this
    client's configuration; the only line a call can write to the console is
    the missing-secret warning, once, and only [createVerification] does. *)
Theorem every_call_frame
    (respond : Request -> JsError + JsValue) (this : Walver) (call : Call)
    (w : World) :
  let out := invoke respond this call w in
  process_env (snd out) = process_env w
  /\ (network (snd out) = network w
      \/ network (snd out) = network w ++ [request_of this call])
  /\ (console (snd out) = console w
      \/ (relays call = false
          /\ console (snd out) = console w ++ [MSG_SECRET_WARNING]))
  /\ req_client (request_of this call) = client this.
Proof.
  cbv zeta. destruct (relays call) eqn:R.
  - rewrite invoke_relay by exact R. simpl. auto.
  - destruct call as [| | | | | | |o]; try discriminate R.
    simpl invoke. rewrite createVerification_run.
    rewrite request_of_verification.
    destruct (expiration_error o); [simpl; auto|]. cbv zeta.
    destruct (first_violation o); destruct (warned o); simpl; auto 6.
Qed.

(** X5: every request issued through a client that [constructor] built
    carries the header [X-API-Key] with the key resolved at construction,
    which is not empty, goes to the stored base URL, and addresses the
    endpoint of the method called. *)
Theorem requests_carry_the_key
    (respond : Request -> JsError + JsValue)
    (key_arg url_arg : option string) (timeout_arg : option number)
    (w w1 : World) (this : Walver) (call : Call) (req : Request) :
  constructor key_arg url_arg timeout_arg w = (Return this, w1) ->
  network (snd (invoke respond this call w1)) = network w1 ++ [req] ->
  headers (req_client req) = [("X-API-Key", apiKey this)]
  /\ apiKey this <> ""
  /\ baseURL (req_client req) = baseUrl this
  /\ (req_method req, req_path req) = endpoint call.
Proof.
  intros C N. apply invoke_request in N as ->.
  apply constructor_success in C as (_ & E & K). cbv zeta in E.
  destruct this as [key base transport]. simpl in E, K |- *.
  injection E as -> ->. simpl.
  repeat split.
  - destruct K as [K|[_ K]]; now apply nonempty_inv in K.
  - now destruct (endpoint call).
Qed.

Lemma requests_carry_the_key_witness :
  headers (req_client (request_of env_client (GetFolder "f1")))
    = [("X-API-Key", "env-key")]
  /\ req_path (request_of env_client (GetFolder "f1")) = "/creator/folders/f1".
Proof.
  pose proof (requests_carry_the_key accept None None None world_with_key
                world_with_key env_client (GetFolder "f1")
                (request_of env_client (GetFolder "f1")) eq_refl eq_refl)
    as (H & _ & _ & P).
  split; [exact H | exact (f_equal snd P)].
Defined.

(** ** The removal loop on any object *)

Lemma is_undefined_inv (v : JsValue) : is_undefined v = true -> v = JUndefined.
Proof. destruct v; simpl; intros H; solve [reflexivity | discriminate H]. Qed.

(** X6: on every object (distinct keys), the loop of lines 230-235 removes
    exactly the properties holding [undefined] and keeps the others in
    their order; running it again changes nothing; reading a property
    whose name is none of [Object.prototype]'s gives the same value after
    as before, removed or not; an own [undefined] property that shadowed a
    member of [Object.prototype] reads as that member afterwards. *)
Theorem remove_undefined_spec (data : JsObject) :
  NoDup (keys data) ->
  remove_undefined data
    = filter (fun kv => negb (is_undefined (snd kv))) data
  /\ remove_undefined (remove_undefined data) = remove_undefined data
  /\ (forall key, inherited key = false ->
        get key (remove_undefined data) = get key data)
  /\ (forall key, inherited key = true ->
        assoc key data = Some JUndefined ->
        get key data = JUndefined
        /\ get key (remove_undefined data) = JInherited key).
Proof.
  intros ND.
  pose proof (remove_undefined_filter data ND) as E.
  split; [exact E|]. split; [|split].
  - rewrite E.
    rewrite remove_undefined_filter by now apply keys_filter_NoDup.
    rewrite filter_twice. apply filter_ext. intros kv.
    now destruct (negb (is_undefined (snd kv))).
  - intros key I. rewrite E. unfold get.
    rewrite assoc_filter_defined by exact ND. rewrite I.
    destruct (assoc key data) as [v|]; [|reflexivity].
    destruct (is_undefined v) eqn:U; [|reflexivity].
    symmetry. now apply is_undefined_inv.
  - intros key I A. rewrite E. unfold get.
    rewrite assoc_filter_defined by exact ND. rewrite A, I.
    split; reflexivity.
Qed.

Lemma remove_undefined_spec_witness :
  remove_undefined shadowing_object = [("name", JString "n")]
  /\ get "value" (remove_undefined shadowing_object) = JUndefined
  /\ get "toString" (remove_undefined shadowing_object)
     = JInherited "toString".
Proof.
  assert (NoDup (keys shadowing_object)) as ND
      by (apply distinct_NoDup; reflexivity).
  destruct (remove_undefined_spec shadowing_object ND) as (E & _ & G & H).
  split; [rewrite E; reflexivity|].
  split.
  - rewrite G; reflexivity.
  - now apply H.
Defined.

(** ** What a transmitted payload always satisfies *)

Lemma accepted_rules (o : VerificationOptions) :
  first_violation o = None -> forall r, violates r o = false.
Proof.
  intros F r.
  exact (find_none _ _ F r (rule_order_complete r)).
Qed.

Lemma no_violation (o : VerificationOptions) :
  (forall r, violates r o = false) -> first_violation o = None.
Proof.
  intros H. unfold first_violation, rule_order. cbn [find].
  now rewrite !H.
Qed.

(** X7: in every request [createVerification] issues, each optional string
    or number the caller did set is transmitted under its key exactly as
    given, the empty string, zero and [NaN] included. *)
Theorem set_fields_are_transmitted
    (respond : Request -> JsError + JsValue) (this : Walver)
    (o : VerificationOptions) (w : World) (req : Request) :
  network (snd (createVerification respond this o w)) = network w ++ [req] ->
  let field key := assoc key (req_data req) in
  (forall s, internal_id o = Some s -> field "internal_id" = Some (JString s))
  /\ (forall s, webhook o = Some s -> field "webhook" = Some (JString s))
  /\ (forall s, secret o = Some s -> field "secret" = Some (JString s))
  /\ (forall s, redirect_url o = Some s ->
                field "redirect_url" = Some (JString s))
  /\ (forall s, folder_id o = Some s -> field "folder_id" = Some (JString s))
  /\ (forall s, token_address o = Some s ->
                field "token_address" = Some (JString s))
  /\ (forall n, token_amount o = Some n ->
                field "token_amount" = Some (JNumber n)).
Proof.
  intros N. apply transmitted_inv in N as [_ ->]. cbv zeta.
  rewrite !(new_request_data this o).
  repeat split; intros x E; rewrite payload_lookup; unfold assemble;
    rewrite E; reflexivity.
Qed.

Lemma set_fields_are_transmitted_witness :
  assoc "webhook" (req_data (new_request walver0 empty_webhook))
    = Some (JString "")
  /\ assoc "folder_id" (req_data (new_request walver0 empty_webhook))
     = Some (JString "f1").
Proof.
  pose proof (set_fields_are_transmitted accept walver0 empty_webhook world0
                (new_request walver0 empty_webhook) eq_refl) as H.
  cbv zeta in H. destruct H as (_ & W & _ & _ & F & _).
  split; [exact (W "" eq_refl) | exact (F "f1" eq_refl)].
Defined.

(** X8: every payload [createVerification] transmits names a target: its
    [folder_id] or its [webhook] is a non-empty string; and its [webhook],
    when present, is a string that is empty or begins with [https://]. *)
Theorem transmitted_target_and_scheme
    (respond : Request -> JsError + JsValue) (this : Walver)
    (o : VerificationOptions) (w : World) (req : Request) :
  network (snd (createVerification respond this o w)) = network w ++ [req] ->
  (exists s, s <> ""
             /\ (assoc "folder_id" (req_data req) = Some (JString s)
                 \/ assoc "webhook" (req_data req) = Some (JString s)))
  /\ (forall v, assoc "webhook" (req_data req) = Some v ->
        exists s, v = JString s
                  /\ (s = "" \/ exists rest, s = ("https://" ++ rest)%string)).
Proof.
  intros N. apply transmitted_inv in N as [F ->].
  rewrite !(new_request_data this o).
  pose proof (accepted_rules o F FolderOrWebhook) as P.
  pose proof (accepted_rules o F WebhookHttps) as S.
  simpl in P, S. split.
  - apply andb_false_iff in P.
    destruct P as [P|P]; apply negb_false_iff in P;
      apply truthy_string_nonempty in P as (s & E & Hs);
      exists s; (split; [exact Hs|]); [left | right];
      rewrite payload_lookup; unfold assemble; rewrite E; reflexivity.
  - intros v. rewrite payload_lookup.
    change (assoc "webhook" (assemble o)) with (Some (of_string (webhook o))).
    destruct (webhook o) as [s|]; simpl; [|discriminate].
    intros [= <-]. exists s. split; [reflexivity|].
    simpl in S. unfold string_truthy in S.
    destruct (String.eqb_spec s "") as [->|Hne]; [now left | right].
    simpl in S. apply negb_false_iff in S.
    exact (proj1 (startsWith_spec s "https://") S).
Qed.

Lemma transmitted_target_and_scheme_witness :
  exists s, s <> ""
            /\ (assoc "folder_id" (req_data (new_request walver0 https_webhook))
                = Some (JString s)
                \/ assoc "webhook" (req_data (new_request walver0 https_webhook))
                   = Some (JString s)).
Proof.
  exact (proj1 (transmitted_target_and_scheme accept walver0 https_webhook
                  world0 (new_request walver0 https_webhook) eq_refl)).
Defined.

(** X9: every payload [createVerification] transmits with [token_gate]
    true also carries a non-empty [token_address] and a [token_amount] that
    is a number other than zero and [NaN]. *)
Theorem transmitted_token_gate
    (respond : Request -> JsError + JsValue) (this : Walver)
    (o : VerificationOptions) (w : World) (req : Request) :
  network (snd (createVerification respond this o w)) = network w ++ [req] ->
  assoc "token_gate" (req_data req) = Some (JBool true) ->
  exists a n,
    a <> ""
    /\ assoc "token_address" (req_data req) = Some (JString a)
    /\ assoc "token_amount" (req_data req) = Some (JNumber n)
    /\ (forall s, n <> S754_zero s) /\ n <> S754_nan.
Proof.
  intros N. apply transmitted_inv in N as [F ->].
  rewrite !(new_request_data this o). rewrite !payload_lookup.
  change (assoc "token_gate" (assemble o))
    with (Some (JBool (or_default false (token_gate o)))).
  change (assoc "token_address" (assemble o))
    with (Some (of_string (token_address o))).
  change (assoc "token_amount" (assemble o))
    with (Some (of_number (token_amount o))).
  cbn [is_undefined]. intros [= G].
  pose proof (accepted_rules o F TokenAddress) as A.
  pose proof (accepted_rules o F TokenAmount) as T.
  simpl in A, T. rewrite G in A, T. simpl in A, T.
  apply negb_false_iff in A, T.
  apply truthy_string_nonempty in A as (a & Ea & Ha).
  destruct (token_amount o) as [n|]; [|discriminate T].
  simpl in T. apply number_truthy_true in T.
  exists a, n. rewrite Ea. simpl. auto.
Qed.

Lemma transmitted_token_gate_witness :
  exists a n,
    a <> ""
    /\ assoc "token_address" (req_data (new_request walver0 five_tokens))
       = Some (JString a)
    /\ assoc "token_amount" (req_data (new_request walver0 five_tokens))
       = Some (JNumber n)
    /\ (forall s, n <> S754_zero s) /\ n <> S754_nan.
Proof.
  apply (transmitted_token_gate accept walver0 five_tokens world0
           (new_request walver0 five_tokens) eq_refl).
  vm_compute. reflexivity.
Defined.

(** X10: every payload [createVerification] transmits with a channel's
    force flag true carries, in its [custom_fields] array, an object whose
    [type] is that channel's name. *)
Theorem transmitted_forced_channels
    (respond : Request -> JsError + JsValue) (this : Walver)
    (o : VerificationOptions) (w : World) (req : Request) (c : Channel) :
  network (snd (createVerification respond this o w)) = network w ++ [req] ->
  assoc (force_key c) (req_data req) = Some (JBool true) ->
  exists items attrs,
    assoc "custom_fields" (req_data req) = Some (JArray items)
    /\ In (JObject (("type", JString (channel_name c)) :: attrs)) items.
Proof.
  intros N. apply transmitted_inv in N as [F ->].
  rewrite !(new_request_data this o). rewrite !payload_lookup.
  rewrite assemble_force_key.
  change (assoc "custom_fields" (assemble o))
    with (Some (JArray (map CustomField_value
                          (or_default [] (custom_fields o))))).
  cbn [is_undefined]. intros [= G].
  pose proof (accepted_rules o F (Force c)) as V.
  simpl in V. rewrite G in V. simpl in V. apply negb_false_iff in V.
  apply has_field_exists in V as (field & Hin & T).
  exists (map CustomField_value (or_default [] (custom_fields o))),
         (attributes field).
  split; [reflexivity|].
  rewrite <- T. change (In (CustomField_value field)
                          (map CustomField_value
                             (or_default [] (custom_fields o)))).
  now apply in_map.
Qed.

Lemma transmitted_forced_channels_witness :
  exists items attrs,
    assoc "custom_fields"
      (req_data (new_request walver0 forced_email_with_field))
    = Some (JArray items)
    /\ In (JObject (("type", JString "email") :: attrs)) items.
Proof.
  apply (transmitted_forced_channels accept walver0 forced_email_with_field
           world0 (new_request walver0 forced_email_with_field) email eq_refl).
  vm_compute. reflexivity.
Defined.

(** ** What the checks do not depend on *)

Lemma violates_with_secret (r : Rule) (s : option string)
    (o : VerificationOptions) :
  violates r (with_secret s o) = violates r o.
Proof. destruct r as [| | | |[]]; reflexivity. Qed.

Lemma first_violation_with_secret (s : option string)
    (o : VerificationOptions) :
  first_violation (with_secret s o) = first_violation o.
Proof.
  unfold first_violation, rule_order. cbn [find].
  now rewrite !violates_with_secret.
Qed.

(** X11: a missing secret is never fatal, and a secret never rescues a
    request: [createVerification] stops before the network for an options
    object exactly when it does for the same object with any other secret,
    or none, and then with the same error.  All the secret decides is the
    console: nothing is logged when it is a non-empty string, and at most
    the one warning when it is missing or empty. *)
Theorem secret_never_fatal
    (respond : Request -> JsError + JsValue) (this : Walver)
    (o : VerificationOptions) (s : option string) (w : World) :
  let out := createVerification respond this o w in
  let out' := createVerification respond this (with_secret s o) w in
  (network (snd out) = network w <-> network (snd out') = network w)
  /\ (network (snd out) = network w -> fst out' = fst out)
  /\ (console (snd out') = console w
      \/ ((s = None \/ s = Some "")
          /\ console (snd out') = console w ++ [MSG_SECRET_WARNING])).
Proof.
  cbv zeta. rewrite !createVerification_run.
  change (expiration_error (with_secret s o)) with (expiration_error o).
  destruct (expiration_error o) as [e|]; [simpl; tauto|]. cbv zeta.
  rewrite first_violation_with_secret.
  assert (console (if warned (with_secret s o)
                   then logged MSG_SECRET_WARNING w else w) = console w
          \/ ((s = None \/ s = Some "")
              /\ console (if warned (with_secret s o)
                          then logged MSG_SECRET_WARNING w else w)
                 = console w ++ [MSG_SECRET_WARNING])) as C.
  { destruct (warned (with_secret s o)) eqn:W; [right | now left].
    split; [|reflexivity].
    unfold warned, secret_missing in W. simpl in W.
    apply andb_true_iff in W as [_ W]. apply andb_true_iff in W as [_ W].
    apply negb_true_iff in W. now apply truthy_string_false. }
  destruct (first_violation o) as [r|]; simpl;
    rewrite !network_after_warning.
  - tauto.
  - split; [split|split]; try exact C;
      intros E; now apply network_grows in E.
Qed.

Lemma secret_never_fatal_witness :
  fst (createVerification accept walver0 (with_secret (Some "s3cret") http_webhook)
         world0)
  = fst (createVerification accept walver0 http_webhook world0).
Proof.
  apply (proj1 (proj2 (secret_never_fatal accept walver0 http_webhook
                         (Some "s3cret") world0))).
  reflexivity.
Defined.

Lemma force_flag_with_custom_fields (c : Channel)
    (v : option (list CustomField)) (o : VerificationOptions) :
  force_flag c (with_custom_fields v o) = force_flag c o.
Proof. now destruct c. Qed.

Lemma violates_with_custom_fields (r : Rule) (v : option (list CustomField))
    (o : VerificationOptions) :
  (forall c, has_field c (or_default [] (custom_fields o)) = true ->
             has_field c (or_default [] v) = true) ->
  violates r o = false ->
  violates r (with_custom_fields v o) = false.
Proof.
  intros H. destruct r as [| | | |c]; try (intros V; exact V).
  simpl. rewrite force_flag_with_custom_fields.
  destruct (or_default false (force_flag c o)); [|reflexivity].
  simpl. rewrite !negb_false_iff. apply H.
Qed.

(** X12: further custom fields never hurt: if [createVerification] issues
    its request for an options object, it also does for the same object
    with any fields appended to [custom_fields]. *)
Theorem extra_fields_never_hurt
    (respond : Request -> JsError + JsValue) (this : Walver)
    (o : VerificationOptions) (more : list CustomField) (w : World)
    (req : Request) :
  let o' :=
    with_custom_fields (Some (or_default [] (custom_fields o) ++ more)) o in
  network (snd (createVerification respond this o w)) = network w ++ [req] ->
  network (snd (createVerification respond this o' w))
  = network w ++ [new_request this o'].
Proof.
  cbv zeta. intros N.
  pose proof (transmitted_formatted respond this o w req N) as D.
  apply transmitted_inv in N as [F _].
  rewrite createVerification_run.
  change (expiration_error
            (with_custom_fields
               (Some (or_default [] (custom_fields o) ++ more)) o))
    with (expiration_error o).
  rewrite D. cbv zeta.
  rewrite no_violation.
  - simpl. now rewrite network_after_warning.
  - intros r. apply violates_with_custom_fields.
    + intros c H. simpl. unfold has_field in *. rewrite existsb_app.
      now rewrite H.
    + now apply accepted_rules.
Qed.

Lemma extra_fields_never_hurt_witness :
  network
    (snd (createVerification accept walver0
            (with_custom_fields
               (Some (or_default [] (custom_fields forced_email_with_field)
                      ++ [wallet_field]))
               forced_email_with_field)
            world0))
  = network world0
    ++ [new_request walver0
          (with_custom_fields
             (Some (or_default [] (custom_fields forced_email_with_field)
                    ++ [wallet_field]))
             forced_email_with_field)].
Proof.
  exact (extra_fields_never_hurt accept walver0 forced_email_with_field
           [wallet_field] world0
           (new_request walver0 forced_email_with_field) eq_refl).
Defined.

Lemma has_field_Permutation (c : Channel) (l l' : list CustomField) :
  Permutation l l' -> has_field c l = has_field c l'.
Proof.
  unfold has_field.
  induction 1 as [|x l l' _ IH|x y l|l l' l'' _ IH1 _ IH2]; simpl.
  - reflexivity.
  - now rewrite IH.
  - destruct (type y =? channel_name c), (type x =? channel_name c);
      reflexivity.
  - now rewrite IH1.
Qed.

(** X13: the order of [custom_fields] plays no part in validation: for two
    options objects that differ only by a permutation of [custom_fields],
    [createVerification] rejects both or neither, with the same error and
    the same console output. *)
Theorem field_order_is_irrelevant
    (respond : Request -> JsError + JsValue) (this : Walver)
    (o : VerificationOptions) (fields fields' : list CustomField) (w : World) :
  custom_fields o = Some fields ->
  Permutation fields fields' ->
  let o' := with_custom_fields (Some fields') o in
  (network (snd (createVerification respond this o w)) = network w
   <-> network (snd (createVerification respond this o' w)) = network w)
  /\ (network (snd (createVerification respond this o w)) = network w ->
      createVerification respond this o' w
      = createVerification respond this o w).
Proof.
  intros E P. cbv zeta.
  assert (forall r, violates r (with_custom_fields (Some fields') o)
                    = violates r o) as V.
  { intros r. destruct r as [| | | |c]; try reflexivity.
    simpl. rewrite force_flag_with_custom_fields, E. simpl.
    now rewrite (has_field_Permutation c fields fields' P). }
  assert (first_violation (with_custom_fields (Some fields') o)
          = first_violation o) as F.
  { unfold first_violation, rule_order. cbn [find]. now rewrite !V. }
  assert (warned (with_custom_fields (Some fields') o) = warned o) as W
      by reflexivity.
  rewrite !createVerification_run.
  change (expiration_error (with_custom_fields (Some fields') o))
    with (expiration_error o).
  destruct (expiration_error o) as [e|]; [simpl; tauto|].
  cbv zeta. rewrite F, W.
  destruct (first_violation o) as [r|]; simpl;
    rewrite !network_after_warning.
  - tauto.
  - split; [split|]; intros N; now apply network_grows in N.
Qed.

Lemma field_order_is_irrelevant_witness :
  createVerification accept walver0
    (with_custom_fields (Some [email_field; wallet_field])
       (with_webhook (Some "http://example.com") forced_email_with_field))
    world0
  = createVerification accept walver0
      (with_webhook (Some "http://example.com") forced_email_with_field)
      world0.
Proof.
  apply (proj2 (field_order_is_irrelevant accept walver0
                  (with_webhook (Some "http://example.com")
                     forced_email_with_field)
                  [wallet_field; email_field] [email_field; wallet_field]
                  world0 eq_refl (perm_swap _ _ _))).
  reflexivity.
Defined.

(** X14: the token and channel checks are opt-in: with [token_gate] unset
    or false and every force flag unset or false, the only errors
    [createVerification] can raise before the network are the presence
    error, the scheme error and, for an [expiration] that is an Invalid
    Date, the RangeError of [toISOString], whatever [token_address],
    [token_amount] and [custom_fields] hold. *)
Theorem checks_are_opt_in
    (respond : Request -> JsError + JsValue) (this : Walver)
    (o : VerificationOptions) (w : World) (e : JsError) :
  token_gate o = None \/ token_gate o = Some false ->
  (forall c, force_flag c o = None \/ force_flag c o = Some false) ->
  fst (createVerification respond this o w) = Throw e ->
  network (snd (createVerification respond this o w)) = network w ->
  e = Error MSG_FOLDER_OR_WEBHOOK
  \/ e = Error MSG_WEBHOOK_HTTPS
  \/ (e = RangeError "Invalid time value"
      /\ exists d, expiration o = Some (ExpDate d) /\ finite_time d = None).
Proof.
  intros G Fl T N.
  destruct (rejected_inv respond this o w N) as [(e' & D & R)|(_ & r & F & T')].
  - rewrite R in T. simpl in T. injection T as <-.
    right. right. split; [now apply (expiration_error_is_range o)|].
    unfold expiration_error, toISOString in D.
    destruct (expiration o) as [[s|d]|]; try discriminate D.
    exists d. split; [reflexivity|].
    now destruct (finite_time d).
  - rewrite T in T'. injection T' as ->.
    apply first_violation_violated in F.
    assert (or_default false (token_gate o) = false) as G'
        by (destruct G as [-> | ->]; reflexivity).
    destruct r as [| | | |c]; simpl in F |- *; auto.
    + rewrite G' in F. discriminate F.
    + rewrite G' in F. discriminate F.
    + destruct (Fl c) as [E|E]; rewrite E in F; discriminate F.
Qed.

Lemma checks_are_opt_in_witness :
  fst (createVerification accept walver0 invalid_date_http_webhook world0)
    = Throw (RangeError "Invalid time value")
  /\ (RangeError "Invalid time value" = Error MSG_FOLDER_OR_WEBHOOK
      \/ RangeError "Invalid time value" = Error MSG_WEBHOOK_HTTPS
      \/ (RangeError "Invalid time value" = RangeError "Invalid time value"
          /\ exists d,
               expiration invalid_date_http_webhook = Some (ExpDate d)
               /\ finite_time d = None)).
Proof.
  split; [reflexivity|].
  apply (checks_are_opt_in accept walver0 invalid_date_http_webhook world0
           (RangeError "Invalid time value")).
  - left. reflexivity.
  - intros []; left; reflexivity.
  - reflexivity.
  - reflexivity.
Defined.

(** X15: validation is local: when [createVerification] stops before the
    network against one remote service it does so against any other, with
    the same error and the same console output; the service is never
    consulted before the checks have passed. *)
Theorem rejection_is_local
    (respond respond' : Request -> JsError + JsValue) (this : Walver)
    (o : VerificationOptions) (w : World) :
  network (snd (createVerification respond this o w)) = network w ->
  createVerification respond' this o w = createVerification respond this o w.
Proof.
  rewrite !createVerification_run.
  destruct (expiration_error o) as [e|]; [reflexivity|]. cbv zeta.
  destruct (first_violation o) as [r|]; simpl; [reflexivity|].
  rewrite network_after_warning. intros N. now apply network_grows in N.
Qed.

Lemma rejection_is_local_witness :
  createVerification (reject timed_out) walver0 zero_amount world0
  = createVerification accept walver0 zero_amount world0.
Proof.
  apply (rejection_is_local accept (reject timed_out) walver0 zero_amount
           world0).
  reflexivity.
Defined.
